(** * Water quality tester: accounts, sessions and route guards

    A shallow embedding of the Express backend ([server.js]: the JSON account
    file and its five endpoints), of the React authentication context
    ([AuthContext.jsx]) and of the three guarded pages ([AuthPage.jsx],
    [ProfileSetupPage.jsx], [ProtectedRoute.jsx], wired by [App.jsx]),
    followed by the properties of the specification that concern them. *)

From stdpp Require Import gmap strings list fin_maps pretty.

Local Open Scope string_scope.

(** ** JavaScript values

    The fragment of JSON the server reads and writes: [undefined], [null],
    booleans, strings and flat objects whose members are strings (a profile).
    Numbers, arrays and deeper objects occur on no path of the program. *)
Module Js.

Inductive jsval : Type :=
  | JUndef
  | JNull
  | JBool (b : bool)
  | JStr (s : string)
  | JObj (o : gmap string string).

(** An account record of [users.json]: a JavaScript object.  A member that is
    absent reads as [undefined]; [JSON.stringify] drops members whose value is
    [undefined], so such a member is never stored. *)
Abbreviation obj := (gmap string jsval).

(** [o.k] *)
Definition get (o : obj) (k : string) : jsval := default JUndef (o !! k).

(** A member [k: v] of an object literal, as it reaches the JSON text. *)
Definition member (k : string) (v : jsval) (o : obj) : obj :=
  match v with
  | JUndef => o
  | _ => <[k := v]> o
  end.

(** [!!v] *)
Definition truthy (v : jsval) : bool :=
  match v with
  | JUndef | JNull => false
  | JBool b => b
  | JStr s => negb (String.eqb s "")
  | JObj _ => true
  end.

(** [a || b] *)
Definition js_or (a b : jsval) : jsval := if truthy a then a else b.

(** [a === b].  Two objects are the same only when they are one reference;
    values parsed from two JSON texts never are. *)
Definition strict_eq (a b : jsval) : bool :=
  match a, b with
  | JUndef, JUndef => true
  | JNull, JNull => true
  | JBool x, JBool y => Bool.eqb x y
  | JStr x, JStr y => String.eqb x y
  | _, _ => false
  end.

(** The own enumerable members of a string: its characters by index. *)
Fixpoint chars_from (i : nat) (s : string) : gmap string string :=
  match s with
  | EmptyString => ∅
  | String c rest => <[pretty i := String c EmptyString]> (chars_from (S i) rest)
  end.

(** [{ ...v }] *)
Definition spread (v : jsval) : gmap string string :=
  match v with
  | JObj o => o
  | JStr s => chars_from 0 s
  | _ => ∅
  end.

(** [String(v)], the conversion [localStorage.setItem] applies to its value. *)
Definition to_string (v : jsval) : string :=
  match v with
  | JUndef => "undefined"
  | JNull => "null"
  | JBool true => "true"
  | JBool false => "false"
  | JStr s => s
  | JObj _ => "[object Object]"
  end.

(** [arr.findIndex(p)]; [None] stands for [-1]. *)
Fixpoint findIndex {A : Type} (p : A → bool) (l : list A) : option nat :=
  match l with
  | [] => None
  | x :: rest => if p x then Some 0 else S <$> findIndex p rest
  end.

End Js.

(** ** The backend, [server.js] *)
Module Server.
Import Js.

(** What [JSON.parse] made of the file, as far as [readUsers] looks at it. *)
Inductive document : Type :=
  | DocNull                        (* the text [null]: reading [.users] throws *)
  | DocOther                       (* a value whose [users] member is missing or falsy *)
  | DocUsers (users : list obj).   (* [{ "users": [...] }] *)

Inductive text : Type :=
  | NotJson                        (* [JSON.parse] throws a SyntaxError *)
  | Json (d : document).

(** The state of [data/users.json] on disk. *)
Inductive users_file : Type :=
  | NoFile                         (* [readFileSync] throws ENOENT *)
  | Unreadable                     (* [readFileSync] throws for another reason *)
  | Content (raw : text).

(** [fs.readFileSync(USERS_FILE, 'utf-8')]; [None] when it throws. *)
Definition readFileSync (f : users_file) : option text :=
  match f with
  | Content raw => Some raw
  | NoFile | Unreadable => None
  end.

(** [JSON.parse(raw)]; [None] when it throws. *)
Definition JSON_parse (raw : text) : option document :=
  match raw with
  | Json d => Some d
  | NotJson => None
  end.

(** [d.users]; the outer [None] when the access throws, the inner one when
    the member is missing or falsy. *)
Definition users_member (d : document) : option (option (list obj)) :=
  match d with
  | DocNull => None
  | DocOther => Some None
  | DocUsers us => Some (Some us)
  end.

Definition readUsers (f : users_file) : list obj :=
  match (readFileSync f ≫= JSON_parse) ≫= users_member with
  | Some (Some users) => users
  | Some None => []               (* [|| []] *)
  | None => []                    (* [catch { return []; }] *)
  end.

(** [fs.writeFileSync(USERS_FILE, JSON.stringify({ users }, null, 2))], when
    the write goes through.  The handlers of this module are the handlers
    over a file that can be written; [Durable] has the write that can throw
    and the handlers over it. *)
Definition writeUsers (users : list obj) : users_file :=
  Content (Json (DocUsers users)).

(** The JSON bodies the endpoints send. *)
Inductive reply : Type :=
  | ErrorReply (error : string)
  | SignupReply (message : string) (email : jsval)
  | LoginReply (message : string) (email profile : jsval)
  | ProfileReply (message : string) (profile : jsval)
  | GoogleReply (message : string) (email name profile : jsval)
  | UsersReply (users : list obj).

(** What a handler does with a request: [res.status(s).json(body)], or, for
    an [async] handler whose promise rejects outside any [try], nothing at
    all: the handler sends no response of its own. *)
Inductive outcome : Type :=
  | Respond (status : nat) (body : reply)
  | Rejects.

(** [const { email, password } = req.body] *)
Record credentials : Type := { email : jsval; password : jsval }.

(** [const { email, profile } = req.body] of [/api/profile] *)
Record profile_body : Type := { owner : jsval; profile : jsval }.

(** [u => u.email === email] *)
Definition has_email (e : jsval) (u : obj) : bool := strict_eq (get u "email") e.

(** The status code a handler answered with, if it answered. *)
Definition status_of (o : outcome) : option nat :=
  match o with
  | Respond status _ => Some status
  | Rejects => None
  end.

(** How many accounts of [users] carry the email [e]. *)
Definition accounts_with (e : jsval) (users : list obj) : nat :=
  length (List.filter (has_email e) users).

Definition one_per_email (users : list obj) : Prop :=
  ∀ e : jsval, (accounts_with e users ≤ 1)%nat.

(** The record [newUser] of [/api/signup]. *)
Definition newUser (email : jsval) (hashedPassword now : string) : obj :=
  member "email" email
    (member "password" (JStr hashedPassword)
      (member "createdAt" (JStr now)
        (member "profile" JNull ∅))).

(** The record [user] that [/api/google-auth] creates for a new email. *)
Definition googleUser (email : jsval) (now : string) : obj :=
  member "email" email
    (member "password" JNull
      (member "googleAuth" (JBool true)
        (member "createdAt" (JStr now)
          (member "profile" JNull ∅)))).

Section Handlers.

(** [bcryptjs], as far as the server uses it.  [bcrypt_hash p salt] is the
    hash [bcrypt.hash(p, SALT_ROUNDS)] resolves to when it draws [salt];
    [bcrypt_check p h] is what [bcrypt.compare(p, h)] resolves to for two
    strings. *)
Variable bcrypt_hash : string → string → string.
Variable bcrypt_check : string → string → bool.

(** [GOOGLE_CLIENT.verifyIdToken(...)] followed by [ticket.getPayload()];
    [None] when either throws. *)
Variable verifyIdToken : jsval → option obj.

(** [await bcrypt.hash(s, SALT_ROUNDS)]: the promise rejects ("Illegal
    arguments") unless [s] is a string. *)
Definition bcrypt_hash_await (s : jsval) (salt : string) : option string :=
  match s with
  | JStr p => Some (bcrypt_hash p salt)
  | _ => None
  end.

(** [await bcrypt.compare(s, hash)]: the promise rejects ("Illegal
    arguments: string, object" for a [null] hash) unless both are strings. *)
Definition bcrypt_compare_await (s hash : jsval) : option bool :=
  match s, hash with
  | JStr p, JStr h => Some (bcrypt_check p h)
  | _, _ => None
  end.

(** [POST /api/signup].  [now] is [new Date().toISOString()] and [salt] the
    salt [bcrypt] draws, both at the time of the request. *)
Definition post_signup (now salt : string) (b : credentials) (f : users_file)
  : outcome * users_file :=
  if negb (truthy (email b)) || negb (truthy (password b)) then
    (Respond 400 (ErrorReply "Email and password are required."), f)
  else
    let users := readUsers f in
    match find (has_email (email b)) users with
    | Some _ =>
        (Respond 409 (ErrorReply "An account with this email already exists."), f)
    | None =>
        match bcrypt_hash_await (password b) salt with
        | None => (Rejects, f)
        | Some hashedPassword =>
            (Respond 201 (SignupReply "Account created successfully." (email b)),
             writeUsers (users ++ [newUser (email b) hashedPassword now]))
        end
    end.

(** [POST /api/login]; the file is only read. *)
Definition post_login (b : credentials) (f : users_file) : outcome :=
  if negb (truthy (email b)) || negb (truthy (password b)) then
    Respond 400 (ErrorReply "Email and password are required.")
  else
    match find (has_email (email b)) (readUsers f) with
    | None => Respond 404 (ErrorReply "No account found with this email.")
    | Some user =>
        match bcrypt_compare_await (password b) (get user "password") with
        | None => Rejects
        | Some false =>
            Respond 401 (ErrorReply "Incorrect password. Please try again.")
        | Some true =>
            Respond 200 (LoginReply "Login successful." (get user "email")
                           (js_or (get user "profile") JNull))
        end
    end.

(** The object [{ ...profile, completedAt: new Date().toISOString() }]. *)
Definition stamped (now : string) (p : jsval) : gmap string string :=
  <["completedAt" := now]> (spread p).

(** [POST /api/profile] *)
Definition post_profile (now : string) (b : profile_body) (f : users_file)
  : outcome * users_file :=
  if negb (truthy (owner b)) then
    (Respond 400 (ErrorReply "Email is required."), f)
  else
    let users := readUsers f in
    match findIndex (has_email (owner b)) users with
    | None => (Respond 404 (ErrorReply "User not found."), f)
    | Some idx =>
        let saved := JObj (stamped now (profile b)) in
        let users' := alter (member "profile" saved) idx users in
        (Respond 200 (ProfileReply "Profile saved." saved), writeUsers users')
    end.

(** [POST /api/google-auth]; [credential] is the member of that name of the
    request body. *)
Definition post_google_auth (now : string) (credential : jsval) (f : users_file)
  : outcome * users_file :=
  if negb (truthy credential) then
    (Respond 400 (ErrorReply "Google credential is required."), f)
  else
    match verifyIdToken credential with
    | None =>
        (Respond 401 (ErrorReply "Invalid Google token. Please try again."), f)
    | Some payload =>
        let email := get payload "email" in
        let name := js_or (get payload "name") (JStr "") in
        let users := readUsers f in
        match find (has_email email) users with
        | Some user =>
            (Respond 200 (GoogleReply "Google auth successful." (get user "email")
                            name (js_or (get user "profile") JNull)), f)
        | None =>
            let user := googleUser email now in
            (Respond 200 (GoogleReply "Google auth successful." (get user "email")
                            name (js_or (get user "profile") JNull)),
             writeUsers (users ++ [user]))
        end
    end.

(** [GET /api/users]: [users.map(({ password, ...rest }) => rest)]. *)
Definition get_users (f : users_file) : outcome :=
  Respond 200 (UsersReply (delete "password" <$> readUsers f)).

End Handlers.

End Server.

(** ** The backend over a file that may refuse the write

    [fs.writeFileSync] throws when the path cannot be written (a directory
    in its place, no permission, no [data] directory).  [writable] tells
    whether the write of the request goes through; when it throws, the file
    is as before.  [/api/login] and [GET /api/users] never write, and
    [/api/profile] writes only after it found the account. *)
Module Durable.
Import Js Server.

(** [writeUsers(users)]; [None] when [fs.writeFileSync] throws. *)
Definition writeUsers (writable : bool) (users : list obj) : option users_file :=
  if writable then Some (Server.writeUsers users) else None.

Section Handlers.

Variable bcrypt_hash : string → string → string.
Variable verifyIdToken : jsval → option obj.

(** [POST /api/signup]: the handler is [async] and has no [try], so a write
    that throws rejects its promise. *)
Definition post_signup (writable : bool) (now salt : string) (b : credentials)
    (f : users_file) : outcome * users_file :=
  if negb (truthy (email b)) || negb (truthy (password b)) then
    (Respond 400 (ErrorReply "Email and password are required."), f)
  else
    let users := readUsers f in
    match find (has_email (email b)) users with
    | Some _ =>
        (Respond 409 (ErrorReply "An account with this email already exists."), f)
    | None =>
        match bcrypt_hash_await bcrypt_hash (password b) salt with
        | None => (Rejects, f)
        | Some hashedPassword =>
            match writeUsers writable
                    (users ++ [newUser (email b) hashedPassword now]) with
            | Some f' =>
                (Respond 201
                   (SignupReply "Account created successfully." (email b)), f')
            | None => (Rejects, f)
            end
        end
    end.

(** [POST /api/google-auth]: the write is inside the [try], so a write that
    throws is answered by the [catch], as an invalid token. *)
Definition post_google_auth (writable : bool) (now : string) (credential : jsval)
    (f : users_file) : outcome * users_file :=
  if negb (truthy credential) then
    (Respond 400 (ErrorReply "Google credential is required."), f)
  else
    match verifyIdToken credential with
    | None =>
        (Respond 401 (ErrorReply "Invalid Google token. Please try again."), f)
    | Some payload =>
        let email := get payload "email" in
        let name := js_or (get payload "name") (JStr "") in
        let users := readUsers f in
        match find (has_email email) users with
        | Some user =>
            (Respond 200 (GoogleReply "Google auth successful." (get user "email")
                            name (js_or (get user "profile") JNull)), f)
        | None =>
            let user := googleUser email now in
            match writeUsers writable (users ++ [user]) with
            | Some f' =>
                (Respond 200
                   (GoogleReply "Google auth successful." (get user "email")
                      name (js_or (get user "profile") JNull)), f')
            | None =>
                (Respond 401
                   (ErrorReply "Invalid Google token. Please try again."), f)
            end
        end
    end.

End Handlers.

End Durable.

(** ** The authentication context, [AuthContext.jsx] *)
Module AuthContext.
Import Js.

(** What [fetch] followed by [res.json()] hands to the caller: the status and
    parsed body of the response, or an exception (caught by every caller). *)
Inductive fetched : Type :=
  | Response (status : nat) (data : Server.reply)
  | NetworkError.

(** [res.ok] *)
Definition ok (status : nat) : bool := Nat.leb 200 status && Nat.ltb status 300.

(** [data.error], [data.email], [data.profile] and [data.users] of a body. *)
Definition data_error (d : Server.reply) : jsval :=
  match d with
  | Server.ErrorReply e => JStr e
  | _ => JUndef
  end.

Definition data_email (d : Server.reply) : jsval :=
  match d with
  | Server.SignupReply _ e | Server.LoginReply _ e _ | Server.GoogleReply _ e _ _ => e
  | _ => JUndef
  end.

Definition data_profile (d : Server.reply) : jsval :=
  match d with
  | Server.LoginReply _ _ p | Server.ProfileReply _ p | Server.GoogleReply _ _ _ p => p
  | _ => JUndef
  end.

Definition data_users (d : Server.reply) : list obj :=
  match d with
  | Server.UsersReply us => us
  | _ => []                         (* [data.users || []] *)
  end.

(** The provider's three [useState] cells and the [wqm_current] entry of
    [localStorage] ([None] when [getItem] returns [null]). *)
Record browser : Type := {
  localStorage : option string;
  currentUser : jsval;
  profile : jsval;
  loading : bool
}.

(** A freshly loaded page over the given [localStorage]. *)
Definition mounted (saved : option string) : browser :=
  {| localStorage := saved; currentUser := JNull; profile := JNull; loading := true |}.

(** [isProfileComplete: !!profile] *)
Definition isProfileComplete (b : browser) : bool := truthy (profile b).

(** The mount effect.  [restore_fetches b] tells whether it calls
    [GET /api/users]; [restore r b] is the state once it has settled, [r]
    being the result of that call. *)
Definition restore_fetches (b : browser) : bool :=
  match localStorage b with
  | Some savedEmail => negb (String.eqb savedEmail "")
  | None => false
  end.

Definition restore (r : fetched) (b : browser) : browser :=
  match localStorage b with
  | Some savedEmail =>
      if negb (String.eqb savedEmail "") then
        match r with
        | Response _ data =>
            let user := find (Server.has_email (JStr savedEmail)) (data_users data) in
            let p := match user with      (* [user?.profile] *)
                     | Some u => get u "profile"
                     | None => JUndef
                     end in
            {| localStorage := localStorage b; currentUser := JStr savedEmail;
               profile := js_or p JNull; loading := false |}
        | NetworkError =>
            {| localStorage := localStorage b; currentUser := JStr savedEmail;
               profile := profile b; loading := false |}
        end
      else
        {| localStorage := localStorage b; currentUser := currentUser b;
           profile := profile b; loading := false |}
  | None =>
      {| localStorage := localStorage b; currentUser := currentUser b;
         profile := profile b; loading := false |}
  end.

Definition cannot_connect : jsval :=
  JStr "Cannot connect to the server. Make sure the backend is running.".

(** [signup(email, password)]: the request it posts, and what it returns and
    leaves behind once [r] has come back. *)
Definition signup_body (email password : string) : Server.credentials :=
  {| Server.email := JStr email; Server.password := JStr password |}.

Definition signup (email : string) (r : fetched) (b : browser) : jsval * browser :=
  match r with
  | NetworkError => (cannot_connect, b)
  | Response status data =>
      if negb (ok status) then
        (js_or (data_error data) (JStr "Signup failed. Please try again."), b)
      else
        (JNull, {| localStorage := Some email; currentUser := JStr email;
                   profile := JNull; loading := loading b |})
  end.

(** [login(email, password)] *)
Definition login_body (email password : string) : Server.credentials :=
  {| Server.email := JStr email; Server.password := JStr password |}.

Definition login (email : string) (r : fetched) (b : browser) : jsval * browser :=
  match r with
  | NetworkError => (cannot_connect, b)
  | Response status data =>
      if negb (ok status) then
        (js_or (data_error data) (JStr "Login failed. Please try again."), b)
      else
        (JNull, {| localStorage := Some email; currentUser := JStr email;
                   profile := js_or (data_profile data) JNull; loading := loading b |})
  end.

(** [logout()] *)
Definition logout (b : browser) : browser :=
  {| localStorage := None; currentUser := JNull; profile := JNull;
     loading := loading b |}.

(** [saveProfile(profileData)] *)
Definition saveProfile_body (profileData : jsval) (b : browser) : Server.profile_body :=
  {| Server.owner := currentUser b; Server.profile := profileData |}.

Definition saveProfile (r : fetched) (b : browser) : browser :=
  match r with
  | NetworkError => b               (* [console.error(...)] only *)
  | Response status data =>
      if ok status then
        {| localStorage := localStorage b; currentUser := currentUser b;
           profile := data_profile data; loading := loading b |}
      else b
  end.

(** [googleLogin(credential)] *)
Definition googleLogin (r : fetched) (b : browser) : jsval * browser :=
  match r with
  | NetworkError => (cannot_connect, b)
  | Response status data =>
      if negb (ok status) then
        (js_or (data_error data) (JStr "Google sign-in failed."), b)
      else
        (JNull, {| localStorage := Some (to_string (data_email data));
                   currentUser := data_email data;
                   profile := js_or (data_profile data) JNull;
                   loading := loading b |})
  end.

End AuthContext.

(** ** The pages and their guards *)
Module Pages.
Import Js AuthContext.

(** What a route element evaluates to: its own content, or
    [<Navigate to=... replace />]. *)
Inductive view : Type :=
  | Shown
  | Navigate (to : string).

(** [AuthPage.jsx], the early return before the forms. *)
Definition AuthPage (b : browser) : view :=
  if truthy (currentUser b) then
    Navigate (if isProfileComplete b then "/dashboard" else "/setup")
  else Shown.

(** [ProfileSetupPage.jsx], the two early returns before the form. *)
Definition ProfileSetupPage (b : browser) : view :=
  if negb (truthy (currentUser b)) then Navigate "/login"
  else if isProfileComplete b then Navigate "/dashboard"
  else Shown.

(** [ProtectedRoute.jsx] around [children]. *)
Definition ProtectedRoute (children : view) (b : browser) : view :=
  if negb (truthy (currentUser b)) then Navigate "/login"
  else if negb (isProfileComplete b) then Navigate "/setup"
  else children.

(** The [Route] entries of [App.jsx]. *)
Inductive route : Type :=
  | login_route        (* path="/login" *)
  | setup_route        (* path="/setup" *)
  | dashboard_route    (* path="/dashboard" *)
  | root_route         (* path="/" *)
  | fallback_route.    (* path="*" *)

Definition element (r : route) (b : browser) : view :=
  match r with
  | login_route => AuthPage b
  | setup_route => ProfileSetupPage b
  | dashboard_route => ProtectedRoute Shown b
  | root_route | fallback_route => Navigate "/login"
  end.

End Pages.

(** ** Browser and backend together

    One tab of the application talking to the server over [fetch].  With
    [online = false] the call throws before it reaches the server.  A request
    whose handler rejects gets no JSON answer from the handler: the [fetch]
    or the [res.json()] of the caller throws, and the caller catches that
    like any failure of the network. *)
Module App.
Import Js AuthContext.

Record world : Type := { disk : Server.users_file; tab : browser }.

Definition deliver (o : Server.outcome) : option fetched :=
  match o with
  | Server.Respond status data => Some (Response status data)
  | Server.Rejects => Some NetworkError
  end.

Section Operations.

Variable bcrypt_hash : string → string → string.
Variable bcrypt_check : string → string → bool.
Variable verifyIdToken : jsval → option obj.

(** The mount effect of [AuthProvider] against the server. *)
Definition restoreSession (online : bool) (w : world) : world :=
  if restore_fetches (tab w) && online then
    match deliver (Server.get_users (disk w)) with
    | Some r => {| disk := disk w; tab := restore r (tab w) |}
    | None => w
    end
  else {| disk := disk w; tab := restore NetworkError (tab w) |}.

Definition signup (now salt : string) (online : bool) (email password : string)
    (w : world) : option (jsval * world) :=
  if online then
    let '(o, f) := Server.post_signup bcrypt_hash now salt
                     (signup_body email password) (disk w) in
    r ← deliver o;
    let '(err, t) := AuthContext.signup email r (tab w) in
    Some (err, {| disk := f; tab := t |})
  else
    let '(err, t) := AuthContext.signup email NetworkError (tab w) in
    Some (err, {| disk := disk w; tab := t |}).

Definition login (online : bool) (email password : string) (w : world)
  : option (jsval * world) :=
  if online then
    r ← deliver (Server.post_login bcrypt_check (login_body email password) (disk w));
    let '(err, t) := AuthContext.login email r (tab w) in
    Some (err, {| disk := disk w; tab := t |})
  else
    let '(err, t) := AuthContext.login email NetworkError (tab w) in
    Some (err, {| disk := disk w; tab := t |}).

Definition logout (w : world) : world :=
  {| disk := disk w; tab := AuthContext.logout (tab w) |}.

Definition saveProfile (now : string) (online : bool) (profileData : jsval)
    (w : world) : option world :=
  if online then
    let '(o, f) := Server.post_profile now
                     (saveProfile_body profileData (tab w)) (disk w) in
    r ← deliver o;
    Some {| disk := f; tab := AuthContext.saveProfile r (tab w) |}
  else
    Some {| disk := disk w; tab := AuthContext.saveProfile NetworkError (tab w) |}.

Definition googleLogin (now : string) (online : bool) (credential : string)
    (w : world) : option (jsval * world) :=
  if online then
    let '(o, f) := Server.post_google_auth verifyIdToken now (JStr credential)
                     (disk w) in
    r ← deliver o;
    let '(err, t) := AuthContext.googleLogin r (tab w) in
    Some (err, {| disk := f; tab := t |})
  else
    let '(err, t) := AuthContext.googleLogin NetworkError (tab w) in
    Some (err, {| disk := disk w; tab := t |}).

End Operations.

End App.

(** ** A small instance of the external services

    Used to run the model on concrete requests: a hash that keeps the
    password behind a fixed prefix, and a verifier that accepts the tokens
    [google:<email>]. *)
Module Demo.
Import Js.

Definition hash (p salt : string) : string := "$2a$10$" ++ p.

Definition check (p h : string) : bool := String.eqb h ("$2a$10$" ++ p).

(** [after pre s] is what follows [pre] in [s], when [s] starts with it. *)
Fixpoint after (pre s : string) : option string :=
  match pre, s with
  | EmptyString, _ => Some s
  | String a pre', String b s' => if Ascii.eqb a b then after pre' s' else None
  | String _ _, EmptyString => None
  end.

Definition verify (token : jsval) : option obj :=
  match token with
  | JStr t =>
      (λ e, <["email" := JStr e]> (<["name" := JStr "Demo User"]> ∅)) <$> after "google:" t
  | _ => None
  end.

Definition account (email password created : string) : obj :=
  <["email" := JStr email]> (<["password" := JStr (hash password "")]>
    (<["createdAt" := JStr created]> (<["profile" := JNull]> ∅))).

Definition one_user : Server.users_file :=
  Server.writeUsers [account "a@x.com" "secret1" "2024-01-01T00:00:00.000Z"].

Definition fields : jsval :=
  JObj (<["fullName" := "A B"]> (<["phone" := "9876543210"]>
    (<["city" := "Pune"]> (<["state" := "MH"]> ∅)))).

End Demo.

(** A hash that, like bcrypt, reads only the first 72 bytes of the
    password: it matches the password it was made from, and every other one
    with the same 72 bytes in front. *)
Module Prefix.

Fixpoint prefix (n : nat) (p : string) : string :=
  match n, p with
  | S n', String c rest => String c (prefix n' rest)
  | _, _ => EmptyString
  end.

Definition hash (p salt : string) : string := "$2a$10$" ++ prefix 72 p.

Definition check (p h : string) : bool := String.eqb h ("$2a$10$" ++ prefix 72 p).

(** A password of 72 bytes. *)
Definition long_password : string :=
  "0123456789abcdefghijklmnopqrstuvwxyz0123456789abcdefghijklmnopqrstuvwxyz".

End Prefix.

(** ** Navigation between the pages *)
Module Navigation.
Import Js AuthContext Pages.

(** The route a path of the program leads to.  Only the paths the program
    itself navigates to are resolved; how React Router matches any other
    path is left out. *)
Definition resolve (path : string) : option route :=
  if String.eqb path "/login" then Some login_route
  else if String.eqb path "/setup" then Some setup_route
  else if String.eqb path "/dashboard" then Some dashboard_route
  else if String.eqb path "/" then Some root_route
  else None.

(** Rendering route [r] and following each [<Navigate>] it evaluates to, at
    most [hops] times; the route whose content is finally shown. *)
Fixpoint settle (hops : nat) (r : route) (b : browser) : option route :=
  match element r b with
  | Shown => Some r
  | Navigate to =>
      match hops with
      | O => None
      | S hops' =>
          match resolve to with
          | Some r' => settle hops' r' b
          | None => None
          end
      end
  end.

(** A page refresh: the state cells start afresh, [localStorage] stays, and
    the mount effect of the provider runs. *)
Definition reload (online : bool) (w : App.world) : App.world :=
  App.restoreSession online
    {| App.disk := App.disk w;
       App.tab := mounted (localStorage (App.tab w)) |}.

(** [handleLogout] of [Navbar.jsx] and [DashboardPage.jsx]:
    [logout(); navigate('/login')]. *)
Definition handleLogout (w : App.world) : App.world * string :=
  (App.logout w, "/login").

End Navigation.

(** ** Regular expressions and text of the forms

    The text typed into a form is a string of code units; the model takes
    the units below 256, of which JavaScript counts TAB, LF, VT, FF, CR, the
    space and the no-break space (160) as white space, both for [\s] and for
    [trim()]. *)
Module Text.
Import Stdlib.Strings.Ascii.

Definition code (c : ascii) : nat := nat_of_ascii c.

Definition is_space (c : ascii) : bool :=
  existsb (Nat.eqb (code c)) [9; 10; 11; 12; 13; 32; 160].

Definition is_char (a c : ascii) : bool := Ascii.eqb c a.

Definition in_range (lo hi c : ascii) : bool :=
  Nat.leb (code lo) (code c) && Nat.leb (code c) (code hi).

(** [s.trimStart()], [s.trimEnd()] and [s.trim()]. *)
Fixpoint trimStart (s : string) : string :=
  match s with
  | EmptyString => EmptyString
  | String c rest => if is_space c then trimStart rest else s
  end.

Fixpoint trimEnd (s : string) : string :=
  match s with
  | EmptyString => EmptyString
  | String c rest =>
      match trimEnd rest with
      | EmptyString => if is_space c then EmptyString else String c EmptyString
      | kept => String c kept
      end
  end.

Definition trim (s : string) : string := trimEnd (trimStart s).

(** Regular expressions over code units, as far as the two patterns of the
    pages need them: a character class, sequence, alternative, repetition. *)
Inductive regex : Type :=
  | Never
  | Empty
  | Class (p : ascii → bool)
  | Seq (r1 r2 : regex)
  | Alt (r1 r2 : regex)
  | Star (r : regex).

(** [r+] and [r{n}] *)
Definition Plus (r : regex) : regex := Seq r (Star r).

Fixpoint Repeat (n : nat) (r : regex) : regex :=
  match n with
  | O => Empty
  | S n' => Seq r (Repeat n' r)
  end.

Fixpoint nullable (r : regex) : bool :=
  match r with
  | Never => false
  | Empty => true
  | Class _ => false
  | Seq r1 r2 => nullable r1 && nullable r2
  | Alt r1 r2 => nullable r1 || nullable r2
  | Star _ => true
  end.

(** The words [w] such that [c :: w] is a word of [r]. *)
Fixpoint deriv (c : ascii) (r : regex) : regex :=
  match r with
  | Never | Empty => Never
  | Class p => if p c then Empty else Never
  | Seq r1 r2 =>
      Alt (Seq (deriv c r1) r2) (if nullable r1 then deriv c r2 else Never)
  | Alt r1 r2 => Alt (deriv c r1) (deriv c r2)
  | Star r1 => Seq (deriv c r1) (Star r1)
  end.

Fixpoint accepts (r : regex) (w : list ascii) : bool :=
  match w with
  | [] => nullable r
  | c :: w' => accepts (deriv c r) w'
  end.

(** [/^r$/.test(s)]: the whole of [s] is a word of [r]. *)
Definition test (r : regex) (s : string) : bool :=
  accepts r (String.list_ascii_of_string s).

(** The words of a regular expression. *)
Inductive matches : regex → list ascii → Prop :=
  | matches_empty : matches Empty []
  | matches_class p c : p c = true → matches (Class p) [c]
  | matches_seq r1 r2 w1 w2 :
      matches r1 w1 → matches r2 w2 → matches (Seq r1 r2) (w1 ++ w2)
  | matches_alt_l r1 r2 w : matches r1 w → matches (Alt r1 r2) w
  | matches_alt_r r1 r2 w : matches r2 w → matches (Alt r1 r2) w
  | matches_star_nil r : matches (Star r) []
  | matches_star_cons r w1 w2 :
      matches r w1 → matches (Star r) w2 → matches (Star r) (w1 ++ w2).

(** [[^\s@]] *)
Definition plain (c : ascii) : bool := negb (is_space c) && negb (is_char "@"%char c).

(** [/^[^\s@]+@[^\s@]+\.[^\s@]+$/], the email pattern of [AuthPage.jsx]. *)
Definition email_pattern : regex :=
  Seq (Plus (Class plain))
    (Seq (Class (is_char "@"%char))
      (Seq (Plus (Class plain))
        (Seq (Class (is_char "."%char))
          (Plus (Class plain))))).

(** [/^[6-9]\d{9}$/], the phone pattern of [ProfileSetupPage.jsx]. *)
Definition phone_pattern : regex :=
  Seq (Class (in_range "6"%char "9"%char))
    (Repeat 9 (Class (in_range "0"%char "9"%char))).

End Text.

(** ** The forms of the auth page and of the profile setup *)
Module Forms.
Import Js Text.

(** What a submit handler leaves behind: the field errors it set, the API
    error it set ([''] when none), the path it navigated to, and the tab and
    the server afterwards. *)
Record submitted : Type := {
  errors : gmap string string;
  apiError : jsval;
  navigated : option string;
  after : App.world
}.

(** [loginForm] and [validateLogin] of [AuthPage.jsx]. *)
Record loginForm : Type := { login_email : string; login_password : string }.

Definition validateLogin (form : loginForm) : gmap string string :=
  let errors : gmap string string := ∅ in
  let errors :=
    if String.eqb (trim (login_email form)) "" then
      <["email" := "Email is required."]> errors
    else if negb (test email_pattern (login_email form)) then
      <["email" := "Please enter a valid email address."]> errors
    else errors in
  let errors :=
    if String.eqb (login_password form) "" then
      <["password" := "Password is required."]> errors
    else errors in
  errors.

(** [signupForm] and [validateSignup] of [AuthPage.jsx]. *)
Record signupForm : Type := {
  signup_email : string;
  signup_password : string;
  confirmPassword : string
}.

Definition validateSignup (form : signupForm) : gmap string string :=
  let errors : gmap string string := ∅ in
  let errors :=
    if String.eqb (trim (signup_email form)) "" then
      <["email" := "Email is required."]> errors
    else if negb (test email_pattern (signup_email form)) then
      <["email" := "Please enter a valid email address."]> errors
    else errors in
  let errors :=
    if String.eqb (signup_password form) "" then
      <["password" := "Password is required."]> errors
    else if Nat.ltb (String.length (signup_password form)) 6 then
      <["password" := "Password must be at least 6 characters."]> errors
    else errors in
  let errors :=
    if String.eqb (confirmPassword form) "" then
      <["confirmPassword" := "Please confirm your password."]> errors
    else if negb (String.eqb (signup_password form) (confirmPassword form)) then
      <["confirmPassword" := "Passwords do not match."]> errors
    else errors in
  errors.

(** [Object.keys(errors).length > 0] *)
Definition has_errors (errors : gmap string string) : bool :=
  Nat.ltb 0 (size errors).

Section Handlers.

Variable bcrypt_hash : string → string → string.
Variable bcrypt_check : string → string → bool.
Variable verifyIdToken : jsval → option obj.

(** [handleLogin] of [AuthPage.jsx]. *)
Definition handleLogin (online : bool) (form : loginForm) (w : App.world)
  : option submitted :=
  let errors := validateLogin form in
  if has_errors errors then
    Some {| errors := errors; apiError := JStr ""; navigated := None; after := w |}
  else
    '(error, w') ← App.login bcrypt_check online (trim (login_email form))
                     (login_password form) w;
    if truthy error then
      Some {| errors := errors; apiError := error; navigated := None; after := w' |}
    else
      Some {| errors := errors; apiError := JStr ""; navigated := Some "/setup";
              after := w' |}.

(** [handleSignup] of [AuthPage.jsx]. *)
Definition handleSignup (now salt : string) (online : bool) (form : signupForm)
    (w : App.world) : option submitted :=
  let errors := validateSignup form in
  if has_errors errors then
    Some {| errors := errors; apiError := JStr ""; navigated := None; after := w |}
  else
    '(error, w') ← App.signup bcrypt_hash now salt online (trim (signup_email form))
                     (signup_password form) w;
    if truthy error then
      Some {| errors := errors; apiError := error; navigated := None; after := w' |}
    else
      Some {| errors := errors; apiError := JStr ""; navigated := Some "/setup";
              after := w' |}.

End Handlers.

(** [form] and [validate] of [ProfileSetupPage.jsx]. *)
Record profileForm : Type := {
  fullName : string;
  phone : string;
  city : string;
  state : string
}.

Definition validate (form : profileForm) : gmap string string :=
  let newErrors : gmap string string := ∅ in
  let newErrors :=
    if String.eqb (trim (fullName form)) "" then
      <["fullName" := "Full name is required."]> newErrors
    else if Nat.ltb (String.length (trim (fullName form))) 2 then
      <["fullName" := "Name must be at least 2 characters."]> newErrors
    else newErrors in
  let newErrors :=
    if String.eqb (trim (phone form)) "" then
      <["phone" := "Phone number is required."]> newErrors
    else if negb (test phone_pattern (trim (phone form))) then
      <["phone" := "Enter a valid 10-digit Indian mobile number."]> newErrors
    else newErrors in
  let newErrors :=
    if String.eqb (trim (city form)) "" then
      <["city" := "City is required."]> newErrors
    else newErrors in
  let newErrors :=
    if String.eqb (state form) "" then
      <["state" := "Please select your state."]> newErrors
    else newErrors in
  newErrors.

(** The object [handleSubmit] passes to [saveProfile]. *)
Definition profileData (form : profileForm) : jsval :=
  JObj (<["fullName" := trim (fullName form)]>
         (<["phone" := trim (phone form)]>
           (<["city" := trim (city form)]>
             (<["state" := state form]> ∅)))).

(** [handleSubmit] of [ProfileSetupPage.jsx]: whatever [saveProfile] did, it
    goes on to the dashboard. *)
Definition handleSubmit (now : string) (online : bool) (form : profileForm)
    (w : App.world) : option submitted :=
  let validationErrors := validate form in
  if has_errors validationErrors then
    Some {| errors := validationErrors; apiError := JStr ""; navigated := None;
            after := w |}
  else
    w' ← App.saveProfile now online (profileData form) w;
    Some {| errors := validationErrors; apiError := JStr "";
            navigated := Some "/dashboard"; after := w' |}.

End Forms.

(** ** Basic facts about the JavaScript fragment *)

Import Js.

Lemma truthy_JStr (s : string) : truthy (JStr s) = true ↔ s ≠ "".
Proof.
  cbn. rewrite negb_true_iff. split.
  - intros H ->. discriminate.
  - intros H. destruct (String.eqb_spec s ""); congruence.
Qed.

Lemma truthy_JStr_ne (s : string) : s ≠ "" → truthy (JStr s) = true.
Proof. apply truthy_JStr. Qed.

Lemma strict_eq_JStr (v : jsval) (e : string) :
  strict_eq v (JStr e) = true ↔ v = JStr e.
Proof.
  destruct v; cbn; try (split; [discriminate | discriminate ]).
  rewrite String.eqb_eq. split; congruence.
Qed.

Lemma has_email_JStr (e : string) (u : obj) :
  Server.has_email (JStr e) u = true ↔ get u "email" = JStr e.
Proof. apply strict_eq_JStr. Qed.

Lemma get_member_eq (k : string) (v : jsval) (o : obj) :
  o !! k = None → get (member k v o) k = v.
Proof.
  intros Hk. unfold get, member.
  destruct v; rewrite ?lookup_insert_eq, ?Hk; reflexivity.
Qed.

Lemma get_member_ne (k k' : string) (v : jsval) (o : obj) :
  k ≠ k' → get (member k v o) k' = get o k'.
Proof.
  intros Hk. unfold get, member.
  destruct v; rewrite ?lookup_insert_ne by done; reflexivity.
Qed.

Lemma lookup_member_ne (k k' : string) (v : jsval) (o : obj) :
  k ≠ k' → member k v o !! k' = o !! k'.
Proof.
  intros Hk. unfold member.
  destruct v; rewrite ?lookup_insert_ne by done; reflexivity.
Qed.

Lemma has_email_member (e v : jsval) (k : string) (u : obj) :
  k ≠ "email" → Server.has_email e (member k v u) = Server.has_email e u.
Proof. intros Hk. unfold Server.has_email. by rewrite get_member_ne. Qed.

(** ** [find] and [findIndex] *)

Lemma findIndex_Some {A : Type} (p : A → bool) (l : list A) (i : nat) :
  findIndex p l = Some i →
  ∃ x, l !! i = Some x ∧ p x = true ∧ find p l = Some x.
Proof.
  revert i. induction l as [|y l IH]; intros i; cbn; [discriminate|].
  destruct (p y) eqn:Hy.
  - intros [= <-]. eauto.
  - destruct (findIndex p l) as [j|]; cbn; [|discriminate].
    intros [= <-]. destruct (IH j eq_refl) as (x & ? & ? & ?). eauto.
Qed.

Lemma findIndex_None {A : Type} (p : A → bool) (l : list A) :
  findIndex p l = None ↔ find p l = None.
Proof.
  induction l as [|y l IH]; cbn; [done|].
  destruct (p y); [split; discriminate|].
  rewrite <- IH. destruct (findIndex p l); cbn; split; congruence.
Qed.

Lemma find_snoc_None {A : Type} (p : A → bool) (l : list A) (x : A) :
  find p l = None → find p (l ++ [x]) = if p x then Some x else None.
Proof.
  induction l as [|y l IH]; cbn; [done|].
  destruct (p y); [discriminate | exact IH].
Qed.

Lemma find_snoc_Some {A : Type} (p : A → bool) (l : list A) (x y : A) :
  find p l = Some y → find p (l ++ [x]) = Some y.
Proof.
  induction l as [|z l IH]; cbn; [discriminate|].
  destruct (p z); [done | exact IH].
Qed.

Lemma findIndex_alter {A : Type} (p : A → bool) (g : A → A) (l : list A) (i : nat) :
  (∀ x, p (g x) = p x) → findIndex p (alter g i l) = findIndex p l.
Proof.
  intros Hg. revert i. induction l as [|y l IH]; intros [|i]; cbn; try done.
  - by rewrite Hg.
  - change (list_alter g i l) with (alter g i l). by rewrite IH.
Qed.

(** ** The store read *)

Lemma readUsers_writeUsers (users : list obj) :
  Server.readUsers (Server.writeUsers users) = users.
Proof. reflexivity. Qed.

(** ** Route guard *)

(** C1.  The guards of the three pages realise the table of the route guard:
    an anonymous visitor sees the auth page and is sent to [/login] from the
    other two; a signed-in user without a profile sees the profile setup and
    is sent to [/setup] from the other two; a signed-in user with a profile
    sees the dashboard and is sent to [/dashboard] from the other two. *)
Theorem route_guard_table (e : string) (p : gmap string string)
    (saved : option string) (l : bool) :
  e ≠ "" →
  let anonymous :=
    {| AuthContext.localStorage := saved; AuthContext.currentUser := JNull;
       AuthContext.profile := JNull; AuthContext.loading := l |} in
  let without_profile :=
    {| AuthContext.localStorage := saved; AuthContext.currentUser := JStr e;
       AuthContext.profile := JNull; AuthContext.loading := l |} in
  let with_profile :=
    {| AuthContext.localStorage := saved; AuthContext.currentUser := JStr e;
       AuthContext.profile := JObj p; AuthContext.loading := l |} in
  Pages.element Pages.login_route anonymous = Pages.Shown
  ∧ Pages.element Pages.setup_route anonymous = Pages.Navigate "/login"
  ∧ Pages.element Pages.dashboard_route anonymous = Pages.Navigate "/login"
  ∧ Pages.element Pages.login_route without_profile = Pages.Navigate "/setup"
  ∧ Pages.element Pages.setup_route without_profile = Pages.Shown
  ∧ Pages.element Pages.dashboard_route without_profile = Pages.Navigate "/setup"
  ∧ Pages.element Pages.login_route with_profile = Pages.Navigate "/dashboard"
  ∧ Pages.element Pages.setup_route with_profile = Pages.Navigate "/dashboard"
  ∧ Pages.element Pages.dashboard_route with_profile = Pages.Shown.
Proof.
  intros He%truthy_JStr_ne. cbn zeta.
  unfold Pages.element, Pages.AuthPage, Pages.ProfileSetupPage,
    Pages.ProtectedRoute, AuthContext.isProfileComplete.
  cbn [AuthContext.currentUser AuthContext.profile].
  rewrite He. repeat split.
Qed.

Lemma route_guard_table_witness :
  "a@x.com" ≠ ""
  ∧ Pages.element Pages.dashboard_route
      {| AuthContext.localStorage := Some "a@x.com";
         AuthContext.currentUser := JStr "a@x.com";
         AuthContext.profile := JNull; AuthContext.loading := false |}
    = Pages.Navigate "/setup".
Proof.
  assert (Hne : "a@x.com" ≠ "") by discriminate.
  split; [exact Hne|].
  exact (proj1 (proj2 (proj2 (proj2 (proj2 (proj2
    (route_guard_table "a@x.com" ∅ (Some "a@x.com") false Hne))))))).
Defined.

(** ** Restoring a session *)

Lemma find_fmap {A B : Type} (p : B → bool) (g : A → B) (l : list A) :
  find p (g <$> l) = g <$> find (λ x, p (g x)) l.
Proof.
  induction l as [|x l IH]; cbn; [done|].
  destruct (p (g x)); [done | exact IH].
Qed.

Lemma has_email_delete_password (e : jsval) (u : obj) :
  Server.has_email e (delete "password" u) = Server.has_email e u.
Proof.
  unfold Server.has_email, get. by rewrite lookup_delete_ne.
Qed.

Lemma find_listed (e : jsval) (users : list obj) :
  find (Server.has_email e) (delete "password" <$> users)
  = delete "password" <$> find (Server.has_email e) users.
Proof.
  rewrite find_fmap. f_equal.
  induction users as [|u users IH]; cbn; [done|].
  rewrite has_email_delete_password, IH. done.
Qed.

(** C3, as the code has it.  A marker naming an email without an account is
    restored as a signed-in session without a profile: [currentUser] is the
    marker's email, [profile] is [null], the marker stays in [localStorage],
    and nothing fails, whether the server is reachable or not. *)
Theorem restore_stale_marker (e : string) (f : Server.users_file) (online : bool) :
  e ≠ "" →
  find (Server.has_email (JStr e)) (Server.readUsers f) = None →
  App.restoreSession online
    {| App.disk := f; App.tab := AuthContext.mounted (Some e) |}
  = {| App.disk := f;
       App.tab := {| AuthContext.localStorage := Some e;
                     AuthContext.currentUser := JStr e;
                     AuthContext.profile := JNull;
                     AuthContext.loading := false |} |}.
Proof.
  intros He Hnone. apply truthy_JStr_ne in He. cbn in He.
  unfold App.restoreSession, AuthContext.restore_fetches, AuthContext.restore.
  cbn [App.tab App.disk AuthContext.mounted AuthContext.localStorage
       AuthContext.profile AuthContext.currentUser].
  rewrite He. destruct online; cbn [andb].
  - cbn [Server.get_users App.deliver AuthContext.data_users].
    rewrite find_listed, Hnone. reflexivity.
  - reflexivity.
Qed.

Lemma restore_stale_marker_witness :
  App.restoreSession true
    {| App.disk := Demo.one_user;
       App.tab := AuthContext.mounted (Some "gone@x.com") |}
  = {| App.disk := Demo.one_user;
       App.tab := {| AuthContext.localStorage := Some "gone@x.com";
                     AuthContext.currentUser := JStr "gone@x.com";
                     AuthContext.profile := JNull;
                     AuthContext.loading := false |} |}.
Proof.
  apply (restore_stale_marker "gone@x.com" Demo.one_user true).
  - discriminate.
  - vm_compute. reflexivity.
Defined.

(** C3, as stated, fails: with the marker [gone@x.com] and an empty store the
    restored session has a current user. *)
Lemma restore_stale_marker_not_anonymous :
  ¬ (∀ (e : string) (f : Server.users_file),
       find (Server.has_email (JStr e)) (Server.readUsers f) = None →
       AuthContext.currentUser
         (App.tab (App.restoreSession true
            {| App.disk := f; App.tab := AuthContext.mounted (Some e) |}))
       = JNull).
Proof.
  intros H.
  specialize (H "gone@x.com" (Server.writeUsers []) eq_refl).
  vm_compute in H. discriminate H.
Qed.

(** ** Accounts and credentials *)

Lemma strict_eq_eq (a b : jsval) : strict_eq a b = true → a = b.
Proof.
  destruct a, b; cbn; try discriminate; try reflexivity.
  - destruct b, b0; cbn; congruence.
  - intros ->%String.eqb_eq. reflexivity.
Qed.

Lemma find_None_filter {A : Type} (p : A → bool) (l : list A) :
  find p l = None → List.filter p l = [].
Proof.
  induction l as [|x l IH]; cbn; [done|].
  destruct (p x); [discriminate | exact IH].
Qed.

Lemma get_newUser_email (e : jsval) (h now : string) :
  get (Server.newUser e h now) "email" = e.
Proof.
  unfold Server.newUser. apply get_member_eq.
  rewrite !lookup_member_ne by done. apply lookup_empty.
Qed.


Lemma get_newUser_profile (e : jsval) (h now : string) :
  get (Server.newUser e h now) "profile" = JNull.
Proof.
  unfold Server.newUser. rewrite !get_member_ne by done. reflexivity.
Qed.

Lemma get_googleUser_email (e : jsval) (now : string) :
  get (Server.googleUser e now) "email" = e.
Proof.
  unfold Server.googleUser. apply get_member_eq.
  rewrite !lookup_member_ne by done. apply lookup_empty.
Qed.

Lemma get_googleUser_password (e : jsval) (now : string) :
  get (Server.googleUser e now) "password" = JNull.
Proof.
  unfold Server.googleUser. rewrite get_member_ne by done. reflexivity.
Qed.

Lemma get_googleUser_profile (e : jsval) (now : string) :
  get (Server.googleUser e now) "profile" = JNull.
Proof.
  unfold Server.googleUser. rewrite !get_member_ne by done. reflexivity.
Qed.

Lemma fields_present (e p : jsval) :
  truthy e = true → truthy p = true → negb (truthy e) || negb (truthy p) = false.
Proof. intros -> ->. reflexivity. Qed.

Lemma Demo_accepts (p salt : string) : Demo.check p (Demo.hash p salt) = true.
Proof. apply String.eqb_refl. Qed.

Lemma Demo_refuses (p w salt : string) :
  w ≠ p → Demo.check w (Demo.hash p salt) = false.
Proof.
  intros Hne. unfold Demo.check, Demo.hash.
  apply String.eqb_neq. cbn. intros [= Heq]. by apply Hne.
Qed.

(** One account per email is kept by every signup request. *)
Lemma signup_one_per_email (bcrypt_hash : string → string → string)
    (now salt : string) (b : Server.credentials) (f : Server.users_file) :
  Server.one_per_email (Server.readUsers f) →
  Server.one_per_email
    (Server.readUsers (Server.post_signup bcrypt_hash now salt b f).2).
Proof.
  intros Hone. unfold Server.post_signup.
  destruct (negb (truthy (Server.email b)) || negb (truthy (Server.password b)));
    [exact Hone|].
  destruct (find _ _) eqn:Hfind; [exact Hone|].
  destruct (Server.bcrypt_hash_await _ _ _) as [h|]; [|exact Hone].
  cbn [snd]. rewrite readUsers_writeUsers. intros e.
  unfold Server.accounts_with. rewrite List.filter_app, length_app.
  cbn [List.filter].
  destruct (Server.has_email e (Server.newUser _ _ _)) eqn:Hnew.
  - unfold Server.has_email in Hnew. rewrite get_newUser_email in Hnew.
    apply strict_eq_eq in Hnew. subst e.
    rewrite (find_None_filter _ _ Hfind). cbn. lia.
  - cbn. specialize (Hone e). unfold Server.accounts_with in Hone. lia.
Qed.

Section Credentials.

Variable bcrypt_hash : string → string → string.
Variable bcrypt_check : string → string → bool.

(** What the password hash is relied on for: a hash matches the password
    it was made from. *)
Hypothesis bcrypt_accepts :
  ∀ p salt, bcrypt_check p (bcrypt_hash p salt) = true.

(** C4, as the code has it.  With a non-empty email and a non-empty
    password, a login for an email whose account holds the hash [h] is
    answered 401 exactly when [bcrypt.compare] of the password and [h]
    resolves to false, and 200 when it resolves to true; a login for an email
    without an account is answered 404; a login whose email or password is
    missing or empty is answered 400 before the store is read.  Nothing is
    assumed of the hash. *)
Theorem login_failures (E w : string) (f : Server.users_file) :
  E ≠ "" → w ≠ "" →
  (∀ (u : obj) (h : string),
      find (Server.has_email (JStr E)) (Server.readUsers f) = Some u →
      get u "password" = JStr h →
      (bcrypt_check w h = false →
       Server.post_login bcrypt_check (AuthContext.login_body E w) f
       = Server.Respond 401
           (Server.ErrorReply "Incorrect password. Please try again."))
      ∧ (bcrypt_check w h = true →
         Server.post_login bcrypt_check (AuthContext.login_body E w) f
         = Server.Respond 200
             (Server.LoginReply "Login successful." (JStr E)
                (js_or (get u "profile") JNull))))
  ∧ (find (Server.has_email (JStr E)) (Server.readUsers f) = None →
      Server.post_login bcrypt_check (AuthContext.login_body E w) f
      = Server.Respond 404
          (Server.ErrorReply "No account found with this email."))
  ∧ (∀ b : Server.credentials,
      truthy (Server.email b) && truthy (Server.password b) = false →
      Server.post_login bcrypt_check b f
      = Server.Respond 400
          (Server.ErrorReply "Email and password are required.")).
Proof.
  intros HE%truthy_JStr_ne Hw%truthy_JStr_ne. split; [|split].
  - intros u h Hfind Hpw.
    assert (Hemail : get u "email" = JStr E).
    { apply has_email_JStr. revert Hfind. generalize (Server.readUsers f).
      intros l. induction l as [|y l IH]; cbn; [discriminate|].
      destruct (Server.has_email (JStr E) y) eqn:Hy; [|exact IH].
      by intros [= <-]. }
    unfold Server.post_login.
    cbn [AuthContext.login_body Server.email Server.password].
    rewrite fields_present, Hfind, Hpw by done.
    cbn [Server.bcrypt_compare_await].
    split; intros ->; [done|by rewrite Hemail].
  - intros Hfind. unfold Server.post_login.
    cbn [AuthContext.login_body Server.email Server.password].
    by rewrite fields_present, Hfind.
  - intros b Hb. unfold Server.post_login.
    destruct (truthy (Server.email b)), (truthy (Server.password b));
      cbn in Hb |- *; done.
Qed.


End Credentials.

Lemma login_failures_witness :
  Server.post_login Demo.check (AuthContext.login_body "a@x.com" "secret2")
    Demo.one_user
  = Server.Respond 401 (Server.ErrorReply "Incorrect password. Please try again.").
Proof.
  refine (proj1 (proj1 (login_failures Demo.check
                   "a@x.com" "secret2" Demo.one_user _ _)
            (Demo.account "a@x.com" "secret1" "2024-01-01T00:00:00.000Z")
            (Demo.hash "secret1" "") _ _) _).
  - discriminate.
  - discriminate.
  - vm_compute. reflexivity.
  - vm_compute. reflexivity.
  - vm_compute. reflexivity.
Defined.

(** Why C4 speaks of the comparison and not of the passwords: a hash that
    reads the first 72 bytes of the password matches the password it was
    made from, and still lets a longer password with those 72 bytes log in. *)
Lemma Prefix_accepts (p salt : string) :
  Prefix.check p (Prefix.hash p salt) = true.
Proof. apply String.eqb_refl. Qed.

Example login_with_longer_password :
  Prefix.long_password ++ "!" ≠ Prefix.long_password
  ∧ Server.post_login Prefix.check
      (AuthContext.login_body "a@x.com" (Prefix.long_password ++ "!"))
      (Server.writeUsers
         [Server.newUser (JStr "a@x.com") (Prefix.hash Prefix.long_password "")
            "2024-01-01T00:00:00.000Z"])
    = Server.Respond 200
        (Server.LoginReply "Login successful." (JStr "a@x.com") JNull).
Proof. split; [discriminate|]. vm_compute. reflexivity. Qed.

(** C4, as stated, fails: for the registered [a@x.com] with password
    [secret1], the candidate [""] differs from the password and is answered
    400, not 401. *)
Lemma login_empty_password_not_401 :
  ¬ (∀ (bcrypt_hash : string → string → string)
       (bcrypt_check : string → string → bool),
       (∀ p w salt, w ≠ p → bcrypt_check w (bcrypt_hash p salt) = false) →
       ∀ (E p w salt : string) (f : Server.users_file) (u : obj),
         find (Server.has_email (JStr E)) (Server.readUsers f) = Some u →
         get u "password" = JStr (bcrypt_hash p salt) →
         w ≠ p →
         Server.status_of
           (Server.post_login bcrypt_check (AuthContext.login_body E w) f)
         = Some 401).
Proof.
  intros H.
  specialize (H Demo.hash Demo.check Demo_refuses "a@x.com" "secret1" "" ""
                Demo.one_user
                (Demo.account "a@x.com" "secret1" "2024-01-01T00:00:00.000Z")).
  assert (Hstatus : Server.status_of
            (Server.post_login Demo.check (AuthContext.login_body "a@x.com" "")
               Demo.one_user) = Some 400) by (vm_compute; reflexivity).
  rewrite H in Hstatus.
  - discriminate Hstatus.
  - vm_compute. reflexivity.
  - vm_compute. reflexivity.
  - discriminate.
Qed.


(** ** Signing up twice *)

(** C7, as the code has it.  For a non-empty email that already has an
    account and any non-empty password (any truthy value), signup is answered
    409 and the file is left as it was; a signup whose email or password is
    missing or empty is answered 400 and leaves the file as it was, whether
    the email is registered or not; and no signup request at all takes a
    store with at most one account per email to one with two for some email. *)
Theorem signup_registered_email (bcrypt_hash : string → string → string)
    (now salt E : string) (p2 : jsval) (f : Server.users_file) (u : obj) :
  E ≠ "" → truthy p2 = true →
  find (Server.has_email (JStr E)) (Server.readUsers f) = Some u →
  Server.post_signup bcrypt_hash now salt
    {| Server.email := JStr E; Server.password := p2 |} f
  = (Server.Respond 409
       (Server.ErrorReply "An account with this email already exists."), f)
  ∧ (∀ (now' salt' : string) (b : Server.credentials),
       truthy (Server.email b) && truthy (Server.password b) = false →
       Server.post_signup bcrypt_hash now' salt' b f
       = (Server.Respond 400
            (Server.ErrorReply "Email and password are required."), f))
  ∧ ∀ (now' salt' : string) (b : Server.credentials),
      Server.one_per_email (Server.readUsers f) →
      Server.one_per_email
        (Server.readUsers (Server.post_signup bcrypt_hash now' salt' b f).2).
Proof.
  intros HE%truthy_JStr_ne Hp Hfind. split; [|split].
  - unfold Server.post_signup. cbn [Server.email Server.password].
    by rewrite fields_present, Hfind.
  - intros now' salt' b Hb. unfold Server.post_signup.
    destruct (truthy (Server.email b)), (truthy (Server.password b));
      cbn in Hb |- *; done.
  - intros now' salt' b. apply signup_one_per_email.
Qed.

Lemma signup_registered_email_witness :
  Server.post_signup Demo.hash "2024-03-03T00:00:00.000Z" "s"
    {| Server.email := JStr "a@x.com"; Server.password := JStr "other" |}
    Demo.one_user
  = (Server.Respond 409
       (Server.ErrorReply "An account with this email already exists."),
     Demo.one_user).
Proof.
  refine (proj1 (signup_registered_email Demo.hash "2024-03-03T00:00:00.000Z" "s"
                   "a@x.com" (JStr "other") Demo.one_user
                   (Demo.account "a@x.com" "secret1" "2024-01-01T00:00:00.000Z")
                   _ _ _)).
  - discriminate.
  - reflexivity.
  - vm_compute. reflexivity.
Defined.

(** C7, as stated, fails: for the registered [a@x.com] the password [""] is
    answered 400, not 409. *)
Lemma signup_empty_password_not_409 :
  ¬ (∀ (bcrypt_hash : string → string → string) (now salt E p2 : string)
       (f : Server.users_file) (u : obj),
       find (Server.has_email (JStr E)) (Server.readUsers f) = Some u →
       Server.status_of
         (Server.post_signup bcrypt_hash now salt
            (AuthContext.signup_body E p2) f).1
       = Some 409).
Proof.
  intros H.
  specialize (H Demo.hash "2024-03-03T00:00:00.000Z" "s" "a@x.com" ""
                Demo.one_user
                (Demo.account "a@x.com" "secret1" "2024-01-01T00:00:00.000Z")).
  assert (Hstatus : Server.status_of
            (Server.post_signup Demo.hash "2024-03-03T00:00:00.000Z" "s"
               (AuthContext.signup_body "a@x.com" "") Demo.one_user).1
          = Some 400) by (vm_compute; reflexivity).
  rewrite H in Hstatus.
  - discriminate Hstatus.
  - vm_compute. reflexivity.
Qed.

(** ** Google sign-in and the password login *)

(** C2, on the code.  A token verified to a non-empty email without an
    account makes [/api/google-auth] store an account whose [password] and
    [profile] are [null].  A later [/api/login] for that email with a
    non-empty password finds the account, so it is not answered 404; but
    [bcrypt.compare] is then called with the [null] hash and rejects, and the
    handler answers nothing at all instead of 401. *)
Theorem google_account_password_login (verifyIdToken : jsval → option obj)
    (bcrypt_check : string → string → bool) (now : string)
    (credential : jsval) (payload : obj) (E w : string) (f : Server.users_file) :
  truthy credential = true →
  verifyIdToken credential = Some payload →
  get payload "email" = JStr E →
  E ≠ "" → w ≠ "" →
  find (Server.has_email (JStr E)) (Server.readUsers f) = None →
  let created := Server.googleUser (JStr E) now in
  let f1 := Server.writeUsers (Server.readUsers f ++ [created]) in
  Server.post_google_auth verifyIdToken now credential f
  = (Server.Respond 200
       (Server.GoogleReply "Google auth successful." (JStr E)
          (js_or (get payload "name") (JStr "")) JNull), f1)
  ∧ find (Server.has_email (JStr E)) (Server.readUsers f1) = Some created
  ∧ get created "password" = JNull
  ∧ get created "profile" = JNull
  ∧ Server.post_login bcrypt_check (AuthContext.login_body E w) f1
    = Server.Rejects.
Proof.
  intros Hcred Hverify Hemail HE%truthy_JStr_ne Hw%truthy_JStr_ne Hfind created f1.
  assert (Hcreated : find (Server.has_email (JStr E)) (Server.readUsers f1)
                     = Some created).
  { unfold f1. rewrite readUsers_writeUsers, (find_snoc_None _ _ _ Hfind).
    unfold Server.has_email, created. rewrite get_googleUser_email.
    cbn [strict_eq]. by rewrite String.eqb_refl. }
  split; [|split; [exact Hcreated|split; [|split]]].
  - unfold Server.post_google_auth. rewrite Hcred, Hverify. cbn [negb].
    rewrite Hemail, Hfind. fold created.
    unfold created at 1 2. rewrite get_googleUser_email, get_googleUser_profile.
    reflexivity.
  - apply get_googleUser_password.
  - apply get_googleUser_profile.
  - unfold Server.post_login.
    cbn [AuthContext.login_body Server.email Server.password].
    rewrite fields_present, Hcreated by done.
    unfold created. rewrite get_googleUser_password. reflexivity.
Qed.

Lemma google_account_password_login_witness :
  Server.post_login Demo.check (AuthContext.login_body "g@x.com" "anything")
    (Server.writeUsers
       (Server.readUsers Demo.one_user
        ++ [Server.googleUser (JStr "g@x.com") "2024-04-04T00:00:00.000Z"]))
  = Server.Rejects.
Proof.
  refine (proj2 (proj2 (proj2 (proj2
    (google_account_password_login Demo.verify Demo.check
       "2024-04-04T00:00:00.000Z" (JStr "google:g@x.com")
       (<["email" := JStr "g@x.com"]> (<["name" := JStr "Demo User"]> ∅))
       "g@x.com" "anything" Demo.one_user _ _ _ _ _ _))))).
  - reflexivity.
  - reflexivity.
  - vm_compute. reflexivity.
  - discriminate.
  - discriminate.
  - vm_compute. reflexivity.
Defined.

(** ** Saving a profile *)

Lemma has_email_profile (e saved : jsval) (u : obj) :
  Server.has_email e (member "profile" saved u) = Server.has_email e u.
Proof. by apply has_email_member. Qed.

Lemma member_profile_twice (p q : gmap string string) (u : obj) :
  member "profile" (JObj q) (member "profile" (JObj p) u)
  = member "profile" (JObj q) u.
Proof. cbn. apply insert_insert_eq. Qed.

Lemma stamped_completedAt (now : string) (fields : jsval) :
  Server.stamped now fields !! "completedAt" = Some now.
Proof. apply lookup_insert_eq. Qed.

Lemma stamped_other (now : string) (fields : jsval) (k : string) :
  k ≠ "completedAt" → Server.stamped now fields !! k = spread fields !! k.
Proof. intros Hk. unfold Server.stamped. by rewrite lookup_insert_ne. Qed.

Lemma post_profile_found (now : string) (e fields : jsval)
    (f : Server.users_file) (idx : nat) :
  truthy e = true →
  findIndex (Server.has_email e) (Server.readUsers f) = Some idx →
  Server.post_profile now {| Server.owner := e; Server.profile := fields |} f
  = (Server.Respond 200
       (Server.ProfileReply "Profile saved." (JObj (Server.stamped now fields))),
     Server.writeUsers
       (alter (member "profile" (JObj (Server.stamped now fields))) idx
          (Server.readUsers f))).
Proof.
  intros He Hidx. unfold Server.post_profile.
  cbn [Server.owner Server.profile]. by rewrite He, Hidx.
Qed.

(** C6, as the code has it.  A successful save answers and stores exactly
    the posted fields with [completedAt] set to the server's clock reading,
    whatever [completedAt] the client posted; a second save of the same
    fields leaves the store as if the first had not happened (nothing of the
    earlier profile is kept), and its profile equals the first one exactly
    when the two clock readings are equal. *)
Theorem profile_save_stamps_and_overwrites (now1 now2 : string)
    (e fields : jsval) (f : Server.users_file) (idx : nat) :
  truthy e = true →
  findIndex (Server.has_email e) (Server.readUsers f) = Some idx →
  let body := {| Server.owner := e; Server.profile := fields |} in
  let p1 := Server.stamped now1 fields in
  let p2 := Server.stamped now2 fields in
  let f1 := Server.writeUsers
              (alter (member "profile" (JObj p1)) idx (Server.readUsers f)) in
  let f2 := Server.writeUsers
              (alter (member "profile" (JObj p2)) idx (Server.readUsers f)) in
  Server.post_profile now1 body f
  = (Server.Respond 200 (Server.ProfileReply "Profile saved." (JObj p1)), f1)
  ∧ Server.post_profile now2 body f1
    = (Server.Respond 200 (Server.ProfileReply "Profile saved." (JObj p2)), f2)
  ∧ p1 !! "completedAt" = Some now1
  ∧ p2 !! "completedAt" = Some now2
  ∧ (∀ k, k ≠ "completedAt" →
       p1 !! k = spread fields !! k ∧ p2 !! k = spread fields !! k)
  ∧ (∃ u, Server.readUsers f2 !! idx = Some u ∧ get u "profile" = JObj p2)
  ∧ (p1 = p2 ↔ now1 = now2).
Proof.
  intros He Hidx body p1 p2 f1 f2.
  split; [by apply post_profile_found|].
  split.
  { unfold body, f1. rewrite (post_profile_found now2 e fields _ idx He).
    - rewrite readUsers_writeUsers, list_alter_alter_eq. f_equal. f_equal.
      apply list_alter_ext; [|done]. intros u _. apply member_profile_twice.
    - rewrite readUsers_writeUsers, findIndex_alter; [done|].
      intros u. apply has_email_profile. }
  split; [apply stamped_completedAt|]. split; [apply stamped_completedAt|].
  split; [intros k Hk; split; by apply stamped_other|].
  split.
  - destruct (findIndex_Some _ _ _ Hidx) as (u & Hu & _).
    exists (member "profile" (JObj p2) u). split.
    + unfold f2. by rewrite readUsers_writeUsers, list_lookup_alter_eq, Hu.
    + unfold get. cbn. by rewrite lookup_insert_eq.
  - split; [|by intros ->].
    intros Heq. assert (Hl : p1 !! "completedAt" = p2 !! "completedAt")
      by (by rewrite Heq).
    unfold p1, p2 in Hl. rewrite !stamped_completedAt in Hl. congruence.
Qed.

Lemma profile_save_stamps_and_overwrites_witness :
  Server.stamped "2024-05-05T10:00:00.000Z"
    (JObj (<["completedAt" := "1999-01-01T00:00:00.000Z"]> ∅))
    !! "completedAt"
  = Some "2024-05-05T10:00:00.000Z".
Proof.
  refine (proj1 (proj2 (proj2
    (profile_save_stamps_and_overwrites
       "2024-05-05T10:00:00.000Z" "2024-05-05T10:00:01.000Z" (JStr "a@x.com")
       (JObj (<["completedAt" := "1999-01-01T00:00:00.000Z"]> ∅))
       Demo.one_user 0 _ _)))).
  - reflexivity.
  - vm_compute. reflexivity.
Defined.

(** C6, as stated, fails: two saves of the same fields that read the same
    clock value (the timestamp has millisecond resolution) answer the same
    [completedAt]. *)
Lemma profile_save_same_instant :
  ¬ (∀ (now1 now2 : string) (e fields : jsval) (f f1 f2 : Server.users_file)
       (m1 m2 : string) (p1 p2 : gmap string string),
       Server.post_profile now1
         {| Server.owner := e; Server.profile := fields |} f
       = (Server.Respond 200 (Server.ProfileReply m1 (JObj p1)), f1) →
       Server.post_profile now2
         {| Server.owner := e; Server.profile := fields |} f1
       = (Server.Respond 200 (Server.ProfileReply m2 (JObj p2)), f2) →
       p1 !! "completedAt" ≠ p2 !! "completedAt").
Proof.
  intros H.
  refine (H "2024-05-05T10:00:00.000Z" "2024-05-05T10:00:00.000Z"
            (JStr "a@x.com") Demo.fields Demo.one_user _ _ _ _ _ _
            eq_refl eq_refl _).
  reflexivity.
Qed.

(** C8.  Whatever the request, [/api/profile] keeps the number and order of
    the accounts, changes no member other than [profile] of any account, and
    changes no account at all other than the first one carrying the posted
    email. *)
Theorem profile_save_frame (now : string) (b : Server.profile_body)
    (f : Server.users_file) :
  let users := Server.readUsers f in
  let users' := Server.readUsers (Server.post_profile now b f).2 in
  length users' = length users
  ∧ ∀ (i : nat) (u : obj),
      users !! i = Some u →
      ∃ u', users' !! i = Some u'
            ∧ (∀ k, k ≠ "profile" → u' !! k = u !! k)
            ∧ (Server.has_email (Server.owner b) u = false → u' = u)
            ∧ (findIndex (Server.has_email (Server.owner b)) users ≠ Some i →
               u' = u).
Proof.
  cbn zeta. unfold Server.post_profile.
  destruct (negb (truthy (Server.owner b))); [by eauto 10|].
  destruct (findIndex _ _) as [idx|] eqn:Hidx; [|by eauto 10].
  cbn [snd]. rewrite readUsers_writeUsers. split; [apply length_alter|].
  intros i u Hu. destruct (decide (idx = i)) as [->|Hne].
  - rewrite list_lookup_alter_eq, Hu. cbn [fmap option_fmap option_map].
    eexists. split; [reflexivity|]. split; [|split].
    + intros k Hk. by apply lookup_member_ne.
    + destruct (findIndex_Some _ _ _ Hidx) as (x & Hx & Hpx & _).
      rewrite Hu in Hx. injection Hx as <-. congruence.
    + congruence.
  - rewrite list_lookup_alter_ne by done. eauto 10.
Qed.

(** ** The debug listing *)

(** C9.  [GET /api/users] answers one record per account, in order, each
    being the account without its [password] member and otherwise equal to
    it; and for two stores whose accounts differ at most in their [password]
    member the two answers are the same. *)
Theorem listing_hides_passwords (f1 f2 : Server.users_file) :
  Forall2 (λ u v : obj, ∀ k, k ≠ "password" → u !! k = v !! k)
    (Server.readUsers f1) (Server.readUsers f2) →
  Server.get_users f1 = Server.get_users f2
  ∧ ∃ listed : list obj,
      Server.get_users f1 = Server.Respond 200 (Server.UsersReply listed)
      ∧ length listed = length (Server.readUsers f1)
      ∧ ∀ (i : nat) (u : obj),
          Server.readUsers f1 !! i = Some u →
          ∃ r, listed !! i = Some r
               ∧ r !! "password" = None
               ∧ ∀ k, k ≠ "password" → r !! k = u !! k.
Proof.
  intros Hsame. split.
  - unfold Server.get_users. do 2 f_equal.
    induction Hsame as [|u v us vs Huv _ IH]; [done|].
    cbn. f_equal; [|exact IH].
    apply map_eq. intros k. destruct (decide (k = "password")) as [->|Hk].
    + by rewrite !lookup_delete_eq.
    + rewrite !lookup_delete_ne by done. by apply Huv.
  - eexists. split; [reflexivity|]. split; [apply length_fmap|].
    intros i u Hu. exists (delete "password" u).
    rewrite list_lookup_fmap, Hu. split; [done|].
    split; [apply lookup_delete_eq|].
    intros k Hk. by apply lookup_delete_ne.
Qed.

Lemma listing_hides_passwords_witness :
  Server.get_users Demo.one_user
  = Server.get_users
      (Server.writeUsers
         [Demo.account "a@x.com" "another" "2024-01-01T00:00:00.000Z"]).
Proof.
  refine (proj1 (listing_hides_passwords Demo.one_user
    (Server.writeUsers
       [Demo.account "a@x.com" "another" "2024-01-01T00:00:00.000Z"]) _)).
  constructor; [|constructor].
  intros k Hk. unfold Demo.account.
  destruct (decide ("email" = k)) as [<-|Hemail].
  - by rewrite !lookup_insert_eq.
  - rewrite !(lookup_insert_ne _ "email") by done.
    by rewrite !(lookup_insert_ne _ "password") by done.
Defined.

(** ** A missing or damaged account file *)

Lemma readUsers_broken (f : Server.users_file) :
  f = Server.NoFile ∨ f = Server.Unreadable ∨ f = Server.Content Server.NotJson →
  Server.readUsers f = [].
Proof. by intros [->|[->| ->]]. Qed.

(** Every handler uses the file through [readUsers] only. *)
Lemma post_login_reads (bcrypt_check : string → string → bool)
    (b : Server.credentials) (f f' : Server.users_file) :
  Server.readUsers f = Server.readUsers f' →
  Server.post_login bcrypt_check b f = Server.post_login bcrypt_check b f'.
Proof. intros H. unfold Server.post_login. by rewrite H. Qed.

Lemma post_signup_reads (bcrypt_hash : string → string → string)
    (now salt : string) (b : Server.credentials) (f f' : Server.users_file) :
  Server.readUsers f = Server.readUsers f' →
  (Server.post_signup bcrypt_hash now salt b f).1
  = (Server.post_signup bcrypt_hash now salt b f').1
  ∧ Server.readUsers (Server.post_signup bcrypt_hash now salt b f).2
    = Server.readUsers (Server.post_signup bcrypt_hash now salt b f').2.
Proof.
  intros H. unfold Server.post_signup. rewrite H.
  destruct (negb _ || negb _); [done|].
  destruct (find _ _); [done|].
  by destruct (Server.bcrypt_hash_await _ _ _).
Qed.

Lemma post_profile_reads (now : string) (b : Server.profile_body)
    (f f' : Server.users_file) :
  Server.readUsers f = Server.readUsers f' →
  (Server.post_profile now b f).1 = (Server.post_profile now b f').1
  ∧ Server.readUsers (Server.post_profile now b f).2
    = Server.readUsers (Server.post_profile now b f').2.
Proof.
  intros H. unfold Server.post_profile. rewrite H.
  destruct (negb _); [done|]. by destruct (findIndex _ _).
Qed.

Lemma post_google_auth_reads (verifyIdToken : jsval → option obj)
    (now : string) (credential : jsval) (f f' : Server.users_file) :
  Server.readUsers f = Server.readUsers f' →
  (Server.post_google_auth verifyIdToken now credential f).1
  = (Server.post_google_auth verifyIdToken now credential f').1
  ∧ Server.readUsers (Server.post_google_auth verifyIdToken now credential f).2
    = Server.readUsers (Server.post_google_auth verifyIdToken now credential f').2.
Proof.
  intros H. unfold Server.post_google_auth. rewrite H.
  destruct (negb _); [done|]. destruct (verifyIdToken _); [|done].
  by destruct (find _ _).
Qed.

(** Over a file that can be written, the handlers with the write that can
    throw are the handlers of [Server]. *)
Lemma Durable_post_signup_writable (bcrypt_hash : string → string → string)
    (now salt : string) (b : Server.credentials) (f : Server.users_file) :
  Durable.post_signup bcrypt_hash true now salt b f
  = Server.post_signup bcrypt_hash now salt b f.
Proof.
  unfold Durable.post_signup, Server.post_signup.
  destruct (negb _ || negb _); [done|]. destruct (find _ _); [done|].
  by destruct (Server.bcrypt_hash_await _ _ _).
Qed.

Lemma Durable_post_google_auth_writable (verifyIdToken : jsval → option obj)
    (now : string) (credential : jsval) (f : Server.users_file) :
  Durable.post_google_auth verifyIdToken true now credential f
  = Server.post_google_auth verifyIdToken now credential f.
Proof.
  unfold Durable.post_google_auth, Server.post_google_auth.
  destruct (negb _); [done|]. destruct (verifyIdToken _); [|done].
  by destruct (find _ _).
Qed.

Lemma Durable_post_signup_reads (bcrypt_hash : string → string → string)
    (writable : bool) (now salt : string) (b : Server.credentials)
    (f f' : Server.users_file) :
  Server.readUsers f = Server.readUsers f' →
  (Durable.post_signup bcrypt_hash writable now salt b f).1
  = (Durable.post_signup bcrypt_hash writable now salt b f').1
  ∧ Server.readUsers (Durable.post_signup bcrypt_hash writable now salt b f).2
    = Server.readUsers (Durable.post_signup bcrypt_hash writable now salt b f').2.
Proof.
  intros H. unfold Durable.post_signup. rewrite H.
  destruct (negb _ || negb _); [done|].
  destruct (find _ _); [done|].
  destruct (Server.bcrypt_hash_await _ _ _); [|done].
  by destruct (Durable.writeUsers _ _).
Qed.

Lemma Durable_post_google_auth_reads (verifyIdToken : jsval → option obj)
    (writable : bool) (now : string) (credential : jsval)
    (f f' : Server.users_file) :
  Server.readUsers f = Server.readUsers f' →
  (Durable.post_google_auth verifyIdToken writable now credential f).1
  = (Durable.post_google_auth verifyIdToken writable now credential f').1
  ∧ Server.readUsers
      (Durable.post_google_auth verifyIdToken writable now credential f).2
    = Server.readUsers
        (Durable.post_google_auth verifyIdToken writable now credential f').2.
Proof.
  intros H. unfold Durable.post_google_auth. rewrite H.
  destruct (negb _); [done|]. destruct (verifyIdToken _); [|done].
  destruct (find _ _); [done|].
  by destruct (Durable.writeUsers _ _).
Qed.

(** C10, as the code has it.  When the account file is missing, unreadable
    or not JSON, [readUsers] yields the empty list, and every endpoint
    answers as it does over a file holding no account and equally writable:
    the damage is not answered with an error of its own.  A login with email
    and password is answered 404, a profile save with an email 404, both
    leaving the file alone.  A signup with email and password is answered
    201 and leaves exactly the new account in the file when the file can be
    written; when the write throws, it sends no answer and the file is as
    before.  A Google sign-in with a valid token is answered 200 and leaves
    exactly the new account when the file can be written; when the write
    throws, it is answered 401 and the file is as before. *)
Theorem broken_file_reads_as_empty (f : Server.users_file) (writable : bool) :
  f = Server.NoFile ∨ f = Server.Unreadable ∨ f = Server.Content Server.NotJson →
  let empty := Server.writeUsers [] in
  Server.readUsers f = []
  ∧ (∀ bcrypt_check b,
       Server.post_login bcrypt_check b f = Server.post_login bcrypt_check b empty)
  ∧ Server.get_users f = Server.get_users empty
  ∧ (∀ now b,
       (Server.post_profile now b f).1 = (Server.post_profile now b empty).1
       ∧ (Server.post_profile now b f).2 = f)
  ∧ (∀ bcrypt_hash now salt b,
       (Durable.post_signup bcrypt_hash writable now salt b f).1
       = (Durable.post_signup bcrypt_hash writable now salt b empty).1
       ∧ Server.readUsers (Durable.post_signup bcrypt_hash writable now salt b f).2
         = Server.readUsers
             (Durable.post_signup bcrypt_hash writable now salt b empty).2)
  ∧ (∀ verifyIdToken now credential,
       (Durable.post_google_auth verifyIdToken writable now credential f).1
       = (Durable.post_google_auth verifyIdToken writable now credential empty).1
       ∧ Server.readUsers
           (Durable.post_google_auth verifyIdToken writable now credential f).2
         = Server.readUsers
             (Durable.post_google_auth verifyIdToken writable now credential empty).2)
  ∧ (∀ bcrypt_check (E w : string),
       E ≠ "" → w ≠ "" →
       Server.post_login bcrypt_check (AuthContext.login_body E w) f
       = Server.Respond 404 (Server.ErrorReply "No account found with this email."))
  ∧ (∀ now (e fields : jsval),
       truthy e = true →
       Server.post_profile now {| Server.owner := e; Server.profile := fields |} f
       = (Server.Respond 404 (Server.ErrorReply "User not found."), f))
  ∧ (∀ bcrypt_hash now salt (E p : string),
       E ≠ "" → p ≠ "" →
       Durable.post_signup bcrypt_hash writable now salt
         (AuthContext.signup_body E p) f
       = if writable then
           (Server.Respond 201
              (Server.SignupReply "Account created successfully." (JStr E)),
            Server.writeUsers [Server.newUser (JStr E) (bcrypt_hash p salt) now])
         else (Server.Rejects, f))
  ∧ (∀ verifyIdToken now (credential : jsval) (payload : obj),
       truthy credential = true →
       verifyIdToken credential = Some payload →
       Durable.post_google_auth verifyIdToken writable now credential f
       = if writable then
           (Server.Respond 200
              (Server.GoogleReply "Google auth successful." (get payload "email")
                 (js_or (get payload "name") (JStr "")) JNull),
            Server.writeUsers [Server.googleUser (get payload "email") now])
         else
           (Server.Respond 401
              (Server.ErrorReply "Invalid Google token. Please try again."), f)).
Proof.
  intros Hf%readUsers_broken empty.
  assert (Hempty : Server.readUsers f = Server.readUsers empty) by exact Hf.
  split; [exact Hf|].
  split; [intros; by apply post_login_reads|].
  split; [unfold Server.get_users; by rewrite Hf|].
  split.
  { intros now b. split; [by apply post_profile_reads|].
    unfold Server.post_profile. rewrite Hf. by destruct (negb _). }
  split; [intros; by apply Durable_post_signup_reads|].
  split; [intros; by apply Durable_post_google_auth_reads|].
  split; [|split; [|split]].
  - intros check E w HE%truthy_JStr_ne Hw%truthy_JStr_ne.
    unfold Server.post_login.
    cbn [AuthContext.login_body Server.email Server.password].
    by rewrite fields_present, Hf.
  - intros now e fields He. unfold Server.post_profile.
    cbn [Server.owner]. by rewrite He, Hf.
  - intros hash now salt E p HE%truthy_JStr_ne Hp%truthy_JStr_ne.
    unfold Durable.post_signup.
    cbn [AuthContext.signup_body Server.email Server.password].
    rewrite fields_present, Hf by done. by destruct writable.
  - intros verify now credential payload Hcred Hverify.
    unfold Durable.post_google_auth. rewrite Hcred, Hverify, Hf. cbn [negb find].
    rewrite get_googleUser_email, get_googleUser_profile.
    by destruct writable.
Qed.

Lemma broken_file_reads_as_empty_witness :
  Durable.post_signup Demo.hash true "2024-06-06T00:00:00.000Z" "s"
    (AuthContext.signup_body "a@x.com" "secret1") (Server.Content Server.NotJson)
  = (Server.Respond 201
       (Server.SignupReply "Account created successfully." (JStr "a@x.com")),
     Server.writeUsers
       [Server.newUser (JStr "a@x.com") (Demo.hash "secret1" "s")
          "2024-06-06T00:00:00.000Z"]).
Proof.
  refine (proj1 (proj2 (proj2 (proj2 (proj2 (proj2 (proj2 (proj2 (proj2
    (broken_file_reads_as_empty (Server.Content Server.NotJson) true _)))))))))
    Demo.hash "2024-06-06T00:00:00.000Z" "s" "a@x.com" "secret1" _ _).
  - right. right. reflexivity.
  - discriminate.
  - discriminate.
Defined.

(** C10, as stated, fails: over an unreadable file that cannot be written
    either (a directory in its place), the signup of [a@x.com] is not
    answered 201. *)
Lemma broken_file_signup_needs_the_write :
  ¬ (∀ (writable : bool) (f : Server.users_file),
       f = Server.NoFile ∨ f = Server.Unreadable
       ∨ f = Server.Content Server.NotJson →
       Server.status_of
         (Durable.post_signup Demo.hash writable "2024-06-06T00:00:00.000Z" "s"
            (AuthContext.signup_body "a@x.com" "secret1") f).1
       = Some 201).
Proof.
  intros H.
  specialize (H false Server.Unreadable (or_intror (or_introl eq_refl))).
  vm_compute in H. discriminate H.
Qed.

(** ** The example session of the specification

    Sign up, save a profile, log out, log in again: the session ends signed
    in with the saved profile, stamped by the server. *)
Example signup_profile_logout_login :
  (App.signup Demo.hash "2024-07-07T08:00:00.000Z" "s" true "a@x.com" "secret1"
     {| App.disk := Server.writeUsers []; App.tab := AuthContext.mounted None |}
   ≫= λ r1, App.saveProfile "2024-07-07T08:01:00.000Z" true Demo.fields r1.2
   ≫= λ w2, App.login Demo.check true "a@x.com" "secret1" (App.logout w2)
   ≫= λ r3, Some (r1.1, r3.1, AuthContext.currentUser (App.tab r3.2),
                  AuthContext.profile (App.tab r3.2)))
  = Some (JNull, JNull, JStr "a@x.com",
          JObj (<["completedAt" := "2024-07-07T08:01:00.000Z"]>
                  (spread Demo.fields))).
Proof. vm_compute. reflexivity. Qed.

(** ** Further properties of the pages and the context *)

(** X1.  From every route and in every state of the tab, following the
    redirects shows a page after at most two of them: the auth page for a
    visitor without a current user, the profile setup for a user without a
    profile, the dashboard otherwise.  No state makes the guards loop. *)
Theorem redirects_settle (r : Pages.route) (b : AuthContext.browser) :
  Navigation.settle 2 r b
  = Some (if truthy (AuthContext.currentUser b) then
            if AuthContext.isProfileComplete b then Pages.dashboard_route
            else Pages.setup_route
          else Pages.login_route).
Proof.
  destruct b as [saved user prof l].
  unfold Navigation.settle, Pages.element, Pages.AuthPage,
    Pages.ProfileSetupPage, Pages.ProtectedRoute, AuthContext.isProfileComplete.
  cbn [AuthContext.currentUser AuthContext.profile].
  destruct r, (truthy user), (truthy prof); reflexivity.
Qed.

(** X2.  Logging out clears the current user, the profile and the stored
    marker and leaves the account file alone; doing it twice is the same as
    once; a refresh afterwards stays signed out, and every route then ends on
    the auth page. *)
Theorem logout_signs_out (w : App.world) (online : bool) (r : Pages.route) :
  App.logout (App.logout w) = App.logout w
  ∧ App.disk (App.logout w) = App.disk w
  ∧ App.tab (App.logout w)
    = {| AuthContext.localStorage := None; AuthContext.currentUser := JNull;
         AuthContext.profile := JNull;
         AuthContext.loading := AuthContext.loading (App.tab w) |}
  ∧ Navigation.reload online (App.logout w)
    = {| App.disk := App.disk w;
         App.tab := {| AuthContext.localStorage := None;
                       AuthContext.currentUser := JNull;
                       AuthContext.profile := JNull;
                       AuthContext.loading := false |} |}
  ∧ Navigation.settle 2 r (App.tab (Navigation.handleLogout w).1)
    = Some Pages.login_route.
Proof.
  repeat split. by destruct r.
Qed.

Lemma truthy_js_or (a b : jsval) : truthy b = true → truthy (js_or a b) = true.
Proof. intros Hb. unfold js_or. by destruct (truthy a) eqn:Ha. Qed.

(** X3.  The value [signup], [login] and [googleLogin] return tells the
    caller what happened: it is [null] exactly when the response was a
    success, and then the tab is signed in and the marker stored; otherwise
    it is a truthy message and the tab is exactly as before. *)
Theorem auth_result_reflects_session (email : string) (r : AuthContext.fetched)
    (b : AuthContext.browser) :
  let succeeded :=
    match r with
    | AuthContext.Response status _ => AuthContext.ok status
    | AuthContext.NetworkError => false
    end in
  let reports (res : jsval * AuthContext.browser) (user : jsval) (saved : string) :=
    if succeeded then
      res.1 = JNull
      ∧ AuthContext.currentUser res.2 = user
      ∧ AuthContext.localStorage res.2 = Some saved
    else truthy res.1 = true ∧ res.2 = b in
  reports (AuthContext.signup email r b) (JStr email) email
  ∧ reports (AuthContext.login email r b) (JStr email) email
  ∧ match r with
    | AuthContext.Response _ data =>
        reports (AuthContext.googleLogin r b) (AuthContext.data_email data)
          (to_string (AuthContext.data_email data))
    | AuthContext.NetworkError =>
        truthy (AuthContext.googleLogin r b).1 = true
        ∧ (AuthContext.googleLogin r b).2 = b
    end.
Proof.
  cbn zeta. destruct r as [status data|].
  - unfold AuthContext.signup, AuthContext.login, AuthContext.googleLogin.
    destruct (AuthContext.ok status); cbn [negb fst snd];
      repeat split; by apply truthy_js_or.
  - repeat split.
Qed.

(** ** Further properties of the endpoints *)

Lemma find_Some_true {A : Type} (p : A → bool) (l : list A) (x : A) :
  find p l = Some x → p x = true.
Proof.
  induction l as [|y l IH]; cbn; [discriminate|].
  destruct (p y) eqn:Hy; [intros [= <-]; exact Hy | exact IH].
Qed.

Lemma find_alter_found {A : Type} (p : A → bool) (g : A → A) (l : list A) (i : nat) :
  (∀ x, p (g x) = p x) →
  findIndex p l = Some i →
  find p (alter g i l) = g <$> find p l.
Proof.
  intros Hg. revert i. induction l as [|y l IH]; intros i; cbn; [discriminate|].
  destruct (p y) eqn:Hy.
  - intros [= <-]. cbn. by rewrite Hg, Hy.
  - destruct (findIndex p l) as [j|] eqn:Hj; cbn; [|discriminate].
    intros [= <-]. cbn. rewrite Hy.
    change (list_alter g j l) with (alter g j l). by apply IH.
Qed.

Lemma find_alter_other {A : Type} (p : A → bool) (g : A → A) (l : list A) (i : nat) :
  (∀ x, p (g x) = p x) →
  findIndex p l ≠ Some i →
  find p (alter g i l) = find p l.
Proof.
  intros Hg. revert i. induction l as [|y l IH]; intros [|i]; cbn; try done.
  - rewrite Hg. by destruct (p y).
  - destruct (p y); [done|]. intros Hne.
    change (list_alter g i l) with (alter g i l). apply IH.
    intros Heq. apply Hne. by rewrite Heq.
Qed.


Lemma has_email_googleUser (e e' : jsval) (now : string) :
  Server.has_email e (Server.googleUser e' now) = strict_eq e' e.
Proof. unfold Server.has_email. by rewrite get_googleUser_email. Qed.

Lemma has_email_newUser (e e' : jsval) (h now : string) :
  Server.has_email e (Server.newUser e' h now) = strict_eq e' e.
Proof. unfold Server.has_email. by rewrite get_newUser_email. Qed.

Lemma accounts_with_alter (e : jsval) (g : obj → obj) (i : nat) (users : list obj) :
  (∀ u, Server.has_email e (g u) = Server.has_email e u) →
  Server.accounts_with e (alter g i users) = Server.accounts_with e users.
Proof.
  intros Hg. unfold Server.accounts_with. revert i.
  induction users as [|u users IH]; intros [|i]; cbn; try done.
  - rewrite Hg. by destruct (Server.has_email e u).
  - change (list_alter g i users) with (alter g i users).
    destruct (Server.has_email e u); cbn; by rewrite IH.
Qed.

Lemma accounts_with_snoc_fresh (e e' : jsval) (users : list obj) (u : obj) :
  find (Server.has_email e') users = None →
  Server.has_email e u = strict_eq e' e →
  (Server.accounts_with e users ≤ 1)%nat →
  (Server.accounts_with e (users ++ [u]) ≤ 1)%nat.
Proof.
  intros Hfind Hu Hone. unfold Server.accounts_with in *.
  rewrite List.filter_app, length_app. cbn [List.filter].
  destruct (Server.has_email e u) eqn:Hnew; cbn; [|lia].
  symmetry in Hu. apply strict_eq_eq in Hu. subst e'.
  rewrite (find_None_filter _ _ Hfind). cbn. lia.
Qed.

(** X4.  A request that is not answered with success writes nothing: after
    a signup not answered 201, a profile save not answered 200 or a Google
    sign-in not answered 200 the file is the one found.  A signup answered
    201 appends exactly one account and leaves the others as they were. *)
Theorem failed_requests_write_nothing (bcrypt_hash : string → string → string)
    (verifyIdToken : jsval → option obj) (now salt : string)
    (f : Server.users_file) :
  (∀ b, Server.status_of (Server.post_signup bcrypt_hash now salt b f).1 ≠ Some 201 →
        (Server.post_signup bcrypt_hash now salt b f).2 = f)
  ∧ (∀ b, Server.status_of (Server.post_signup bcrypt_hash now salt b f).1 = Some 201 →
          ∃ h, Server.readUsers (Server.post_signup bcrypt_hash now salt b f).2
               = (Server.readUsers f
                  ++ [Server.newUser (Server.email b) h now])%list)
  ∧ (∀ b, Server.status_of (Server.post_profile now b f).1 ≠ Some 200 →
          (Server.post_profile now b f).2 = f)
  ∧ (∀ credential,
       Server.status_of (Server.post_google_auth verifyIdToken now credential f).1
       ≠ Some 200 →
       (Server.post_google_auth verifyIdToken now credential f).2 = f).
Proof.
  split; [|split; [|split]].
  - intros b. unfold Server.post_signup.
    destruct (negb _ || negb _); [done|]. destruct (find _ _); [done|].
    destruct (Server.bcrypt_hash_await _ _ _); [|done]. cbn. congruence.
  - intros b. unfold Server.post_signup.
    destruct (negb _ || negb _); [discriminate|].
    destruct (find _ _); [discriminate|].
    destruct (Server.bcrypt_hash_await _ _ _) as [h|]; [|discriminate].
    intros _. by exists h.
  - intros b. unfold Server.post_profile.
    destruct (negb _); [done|]. destruct (findIndex _ _); [|done].
    cbn. congruence.
  - intros credential. unfold Server.post_google_auth.
    destruct (negb _); [done|]. destruct (verifyIdToken _); [|done].
    destruct (find _ _); [done|]. cbn. congruence.
Qed.



(** X6.  No endpoint gives an email a second account: a store with at most
    one account per email still has at most one after any signup, profile
    save or Google sign-in. *)
Theorem endpoints_keep_one_per_email (bcrypt_hash : string → string → string)
    (verifyIdToken : jsval → option obj) (now salt : string)
    (f : Server.users_file) :
  Server.one_per_email (Server.readUsers f) →
  (∀ b, Server.one_per_email
          (Server.readUsers (Server.post_signup bcrypt_hash now salt b f).2))
  ∧ (∀ b, Server.one_per_email
            (Server.readUsers (Server.post_profile now b f).2))
  ∧ (∀ credential,
       Server.one_per_email
         (Server.readUsers
            (Server.post_google_auth verifyIdToken now credential f).2)).
Proof.
  intros Hone. split; [|split].
  - intros b. by apply signup_one_per_email.
  - intros b. unfold Server.post_profile.
    destruct (negb _); [done|]. destruct (findIndex _ _); [|done].
    cbn [snd]. rewrite readUsers_writeUsers. intros e.
    rewrite accounts_with_alter; [apply Hone|].
    intros u. apply has_email_profile.
  - intros credential. unfold Server.post_google_auth.
    destruct (negb _); [done|]. destruct (verifyIdToken _) as [payload|]; [|done].
    destruct (find _ _) eqn:Hfind; [done|].
    cbn [snd]. rewrite readUsers_writeUsers. intros e.
    eapply accounts_with_snoc_fresh; [exact Hfind| |apply Hone].
    apply has_email_googleUser.
Qed.

Lemma one_user_one_per_email : Server.one_per_email (Server.readUsers Demo.one_user).
Proof.
  intros e. unfold Server.accounts_with. cbn [Server.readUsers Demo.one_user
    Server.writeUsers Server.readFileSync Server.JSON_parse Server.users_member
    mbind option_bind List.filter].
  destruct (Server.has_email e _); cbn; lia.
Qed.

Lemma endpoints_keep_one_per_email_witness :
  Server.one_per_email
    (Server.readUsers
       (Server.post_google_auth Demo.verify "2024-08-08T00:00:00.000Z"
          (JStr "google:g@x.com") Demo.one_user).2).
Proof.
  exact (proj2 (proj2 (endpoints_keep_one_per_email Demo.hash Demo.verify
    "2024-08-08T00:00:00.000Z" "s" Demo.one_user one_user_one_per_email))
    (JStr "google:g@x.com")).
Defined.

(** X7.  An account is never removed and never re-keyed: for an email that
    has an account, the first account with that email after any signup,
    profile save or Google sign-in is the one before, equal in every member
    but [profile]; its password and creation time cannot be changed by any
    request. *)
Theorem registered_account_is_kept (bcrypt_hash : string → string → string)
    (verifyIdToken : jsval → option obj) (now salt : string) (e : jsval)
    (u : obj) (f : Server.users_file) :
  find (Server.has_email e) (Server.readUsers f) = Some u →
  let kept (f' : Server.users_file) :=
    ∃ u', find (Server.has_email e) (Server.readUsers f') = Some u'
          ∧ ∀ k, k ≠ "profile" → u' !! k = u !! k in
  (∀ b, kept (Server.post_signup bcrypt_hash now salt b f).2)
  ∧ (∀ b, kept (Server.post_profile now b f).2)
  ∧ (∀ credential, kept (Server.post_google_auth verifyIdToken now credential f).2).
Proof.
  intros Hfind kept.
  assert (Hsame : kept f) by (exists u; done).
  split; [|split].
  - intros b. unfold Server.post_signup.
    destruct (negb _ || negb _); [exact Hsame|].
    destruct (find (Server.has_email (Server.email b)) _); [exact Hsame|].
    destruct (Server.bcrypt_hash_await _ _ _); [|exact Hsame].
    cbn [snd]. exists u.
    by rewrite readUsers_writeUsers, (find_snoc_Some _ _ _ _ Hfind).
  - intros b. unfold Server.post_profile.
    destruct (negb _); [exact Hsame|].
    destruct (findIndex _ _) as [idx|] eqn:Hidx; [|exact Hsame].
    cbn [snd]. unfold kept. rewrite readUsers_writeUsers.
    destruct (decide (findIndex (Server.has_email e) (Server.readUsers f) = Some idx))
      as [Heq|Hne].
    + rewrite (find_alter_found _ _ _ _ (has_email_profile e _) Heq), Hfind.
      eexists. split; [reflexivity|]. intros k Hk. by apply lookup_member_ne.
    + rewrite (find_alter_other _ _ _ _ (has_email_profile e _) Hne).
      by exists u.
  - intros credential. unfold Server.post_google_auth.
    destruct (negb _); [exact Hsame|].
    destruct (verifyIdToken _) as [payload|]; [|exact Hsame].
    destruct (find (Server.has_email (get payload "email")) _); [exact Hsame|].
    cbn [snd]. exists u.
    by rewrite readUsers_writeUsers, (find_snoc_Some _ _ _ _ Hfind).
Qed.

Lemma registered_account_is_kept_witness :
  ∃ u', find (Server.has_email (JStr "a@x.com"))
          (Server.readUsers
             (Server.post_profile "2024-09-09T00:00:00.000Z"
                {| Server.owner := JStr "a@x.com"; Server.profile := Demo.fields |}
                Demo.one_user).2) = Some u'
        ∧ ∀ k, k ≠ "profile" →
               u' !! k
               = Demo.account "a@x.com" "secret1" "2024-01-01T00:00:00.000Z" !! k.
Proof.
  refine (proj1 (proj2 (registered_account_is_kept Demo.hash Demo.verify
    "2024-09-09T00:00:00.000Z" "s" (JStr "a@x.com")
    (Demo.account "a@x.com" "secret1" "2024-01-01T00:00:00.000Z")
    Demo.one_user _))
    {| Server.owner := JStr "a@x.com"; Server.profile := Demo.fields |}).
  vm_compute. reflexivity.
Defined.

(** ** Further properties of a session *)

Lemma js_or_idem (a b : jsval) : js_or (js_or a b) b = js_or a b.
Proof.
  unfold js_or. destruct (truthy a) eqn:Ha; [by rewrite Ha|].
  by destruct (truthy b).
Qed.

Lemma get_delete_password (u : obj) (k : string) :
  k ≠ "password" → get (delete "password" u) k = get u k.
Proof. intros Hk. unfold get. by rewrite lookup_delete_ne. Qed.

Lemma get_member_profile (saved : gmap string string) (u : obj) :
  get (member "profile" (JObj saved) u) "profile" = JObj saved.
Proof. unfold get. cbn. by rewrite lookup_insert_eq. Qed.

(** X8.  A saved profile is the one the next login returns: after a
    successful save for an email whose account holds a hash of [p], logging
    in with that email and [p] is answered 200 with exactly the saved fields
    and the server's [completedAt]. *)
Theorem login_returns_saved_profile (bcrypt_hash : string → string → string)
    (bcrypt_check : string → string → bool) (now E p salt : string)
    (fields : jsval) (u : obj) (f : Server.users_file) :
  (∀ p salt, bcrypt_check p (bcrypt_hash p salt) = true) →
  E ≠ "" → p ≠ "" →
  find (Server.has_email (JStr E)) (Server.readUsers f) = Some u →
  get u "password" = JStr (bcrypt_hash p salt) →
  Server.post_login bcrypt_check (AuthContext.login_body E p)
    (Server.post_profile now
       {| Server.owner := JStr E; Server.profile := fields |} f).2
  = Server.Respond 200
      (Server.LoginReply "Login successful." (JStr E)
         (JObj (<["completedAt" := now]> (spread fields)))).
Proof.
  intros Haccepts HE%truthy_JStr_ne Hp%truthy_JStr_ne Hfind Hpw.
  destruct (findIndex (Server.has_email (JStr E)) (Server.readUsers f))
    as [idx|] eqn:Hidx; [|apply findIndex_None in Hidx; congruence].
  rewrite (post_profile_found now (JStr E) fields f idx HE Hidx). cbn [snd].
  unfold Server.post_login.
  cbn [AuthContext.login_body Server.email Server.password].
  rewrite fields_present, readUsers_writeUsers by done.
  rewrite (find_alter_found _ _ _ _ (has_email_profile _ _) Hidx), Hfind.
  cbn [fmap option_fmap option_map].
  rewrite !get_member_ne by done. rewrite Hpw, get_member_profile.
  cbn [Server.bcrypt_compare_await]. rewrite Haccepts.
  apply find_Some_true, has_email_JStr in Hfind. by rewrite Hfind.
Qed.

Lemma login_returns_saved_profile_witness :
  Server.post_login Demo.check (AuthContext.login_body "a@x.com" "secret1")
    (Server.post_profile "2024-09-09T00:00:00.000Z"
       {| Server.owner := JStr "a@x.com"; Server.profile := Demo.fields |}
       Demo.one_user).2
  = Server.Respond 200
      (Server.LoginReply "Login successful." (JStr "a@x.com")
         (JObj (<["completedAt" := "2024-09-09T00:00:00.000Z"]>
                  (spread Demo.fields)))).
Proof.
  refine (login_returns_saved_profile Demo.hash Demo.check
    "2024-09-09T00:00:00.000Z" "a@x.com" "secret1" "" Demo.fields
    (Demo.account "a@x.com" "secret1" "2024-01-01T00:00:00.000Z")
    Demo.one_user Demo_accepts _ _ _ _).
  - discriminate.
  - discriminate.
  - vm_compute. reflexivity.
  - vm_compute. reflexivity.
Defined.

(** X9.  [saveProfile] changes nothing, neither the tab nor the file, and
    reports nothing, when the server cannot be reached, when nobody is signed
    in, or when the signed-in email has no account. *)
Theorem saveProfile_without_account (now : string) (online : bool)
    (profileData : jsval) (w : App.world) :
  online = false
  ∨ truthy (AuthContext.currentUser (App.tab w)) = false
  ∨ find (Server.has_email (AuthContext.currentUser (App.tab w)))
      (Server.readUsers (App.disk w)) = None →
  App.saveProfile now online profileData w = Some w.
Proof.
  destruct w as [f b]. unfold App.saveProfile, Server.post_profile.
  cbn [App.disk App.tab AuthContext.saveProfile_body Server.owner].
  intros [->|H]; [done|]. destruct online; [|done].
  destruct (truthy (AuthContext.currentUser b)) eqn:Huser; cbn [negb].
  - destruct H as [H|H]; [discriminate|].
    apply findIndex_None in H. by rewrite H.
  - done.
Qed.

Lemma saveProfile_without_account_witness :
  App.saveProfile "2024-09-09T00:00:00.000Z" true Demo.fields
    {| App.disk := Demo.one_user;
       App.tab := AuthContext.logout (AuthContext.mounted None) |}
  = Some {| App.disk := Demo.one_user;
            App.tab := AuthContext.logout (AuthContext.mounted None) |}.
Proof.
  apply (saveProfile_without_account "2024-09-09T00:00:00.000Z" true Demo.fields
           {| App.disk := Demo.one_user;
              App.tab := AuthContext.logout (AuthContext.mounted None) |}).
  right. left. reflexivity.
Defined.

Lemma js_or_message_not_null (a : jsval) (s : string) : js_or a (JStr s) ≠ JNull.
Proof. unfold js_or. destruct a; cbn; try done. by destruct b. by destruct (negb _). Qed.

Lemma post_login_ok_inv (bcrypt_check : string → string → bool)
    (b : Server.credentials) (f : Server.users_file) (status : nat)
    (data : Server.reply) :
  Server.post_login bcrypt_check b f = Server.Respond status data →
  AuthContext.ok status = true →
  ∃ user, truthy (Server.email b) = true
          ∧ find (Server.has_email (Server.email b)) (Server.readUsers f) = Some user
          ∧ data = Server.LoginReply "Login successful." (get user "email")
                     (js_or (get user "profile") JNull).
Proof.
  unfold Server.post_login.
  destruct (truthy (Server.email b)) eqn:He; cbn [negb orb];
    [|intros [= <- <-]; discriminate].
  destruct (negb _); [intros [= <- <-]; discriminate|].
  destruct (find _ _) as [user|]; [|intros [= <- <-]; discriminate].
  destruct (Server.bcrypt_compare_await _ _ _) as [[]|]; try discriminate.
  - intros [= <- <-] _. by exists user.
  - intros [= <- <-]. discriminate.
Qed.

Lemma restore_listed (e : string) (f : Server.users_file) (user : obj) :
  e ≠ "" →
  find (Server.has_email (JStr e)) (Server.readUsers f) = Some user →
  App.restoreSession true
    {| App.disk := f; App.tab := AuthContext.mounted (Some e) |}
  = {| App.disk := f;
       App.tab := {| AuthContext.localStorage := Some e;
                     AuthContext.currentUser := JStr e;
                     AuthContext.profile := js_or (get user "profile") JNull;
                     AuthContext.loading := false |} |}.
Proof.
  intros He Hfind. apply truthy_JStr_ne in He. cbn in He.
  unfold App.restoreSession, AuthContext.restore_fetches, AuthContext.restore.
  cbn [App.tab App.disk AuthContext.mounted AuthContext.localStorage
       AuthContext.profile AuthContext.currentUser].
  rewrite He. cbn [andb Server.get_users App.deliver AuthContext.data_users].
  rewrite find_listed, Hfind. cbn [fmap option_fmap option_map].
  by rewrite get_delete_password.
Qed.

(** X10.  A session survives a refresh: after a login or a signup that
    returned [null], reloading the page with the server reachable restores
    the same current user and the same profile, and keeps the marker. *)
Theorem session_survives_reload (bcrypt_hash : string → string → string)
    (bcrypt_check : string → string → bool) (now salt E p : string)
    (w w1 : App.world) :
  App.login bcrypt_check true E p w = Some (JNull, w1)
  ∨ App.signup bcrypt_hash now salt true E p w = Some (JNull, w1) →
  AuthContext.currentUser (App.tab w1) = JStr E
  ∧ Navigation.reload true w1
    = {| App.disk := App.disk w1;
         App.tab := {| AuthContext.localStorage := Some E;
                       AuthContext.currentUser := JStr E;
                       AuthContext.profile := AuthContext.profile (App.tab w1);
                       AuthContext.loading := false |} |}.
Proof.
  destruct w as [f b]. intros [H|H].
  - unfold App.login in H. cbn [App.disk App.tab] in H.
    destruct (Server.post_login _ _ _) as [status data|] eqn:Hlogin;
      [|discriminate].
    cbn in H. destruct (AuthContext.ok status) eqn:Hok; cbn in H.
    + injection H as <-.
      destruct (post_login_ok_inv _ _ _ _ _ Hlogin Hok) as (user & HE & Hfind & ->).
      cbn in HE, Hfind. apply truthy_JStr in HE.
      split; [done|]. unfold Navigation.reload.
      cbn [App.disk App.tab AuthContext.localStorage AuthContext.profile
           AuthContext.data_profile].
      rewrite (restore_listed E f user HE Hfind). by rewrite js_or_idem.
    + injection H as H _. by apply js_or_message_not_null in H.
  - unfold App.signup, Server.post_signup in H.
    cbn [App.disk App.tab AuthContext.signup_body Server.email Server.password] in H.
    destruct (truthy (JStr E)) eqn:HE; cbn [negb orb] in H;
      [|cbn in H; by injection H].
    destruct (negb (truthy (JStr p))); [cbn in H; by injection H|].
    destruct (find _ _) eqn:Hfind; [cbn in H; by injection H|].
    cbn [Server.bcrypt_hash_await App.deliver mbind option_bind] in H.
    unfold AuthContext.signup in H. cbn [AuthContext.ok Nat.leb Nat.ltb andb negb] in H.
    injection H as <-. apply truthy_JStr in HE.
    split; [done|]. unfold Navigation.reload.
    cbn [App.disk App.tab AuthContext.localStorage AuthContext.profile].
    rewrite (restore_listed E _
               (Server.newUser (JStr E) (bcrypt_hash p salt) now) HE).
    + by rewrite get_newUser_profile.
    + rewrite readUsers_writeUsers, (find_snoc_None _ _ _ Hfind).
      change (<["email":=JStr E]> _)
        with (Server.newUser (JStr E) (bcrypt_hash p salt) now).
      rewrite has_email_newUser. cbn. by rewrite String.eqb_refl.
Qed.

Lemma session_survives_reload_witness :
  Navigation.reload true
    {| App.disk := Demo.one_user;
       App.tab := {| AuthContext.localStorage := Some "a@x.com";
                     AuthContext.currentUser := JStr "a@x.com";
                     AuthContext.profile := JNull;
                     AuthContext.loading := true |} |}
  = {| App.disk := Demo.one_user;
       App.tab := {| AuthContext.localStorage := Some "a@x.com";
                     AuthContext.currentUser := JStr "a@x.com";
                     AuthContext.profile := JNull;
                     AuthContext.loading := false |} |}.
Proof.
  refine (proj2 (session_survives_reload Demo.hash Demo.check "" "" "a@x.com"
    "secret1"
    {| App.disk := Demo.one_user; App.tab := AuthContext.mounted None |}
    {| App.disk := Demo.one_user;
       App.tab := {| AuthContext.localStorage := Some "a@x.com";
                     AuthContext.currentUser := JStr "a@x.com";
                     AuthContext.profile := JNull;
                     AuthContext.loading := true |} |} _)).
  left. vm_compute. reflexivity.
Defined.

(** X11.  Saving the profile completes the setup: for a signed-in user whose
    email has an account, [saveProfile] with the server reachable stores the
    stamped profile in the account and in the tab; from then on every route
    ends on the dashboard, and a refresh restores the same session. *)
Theorem saveProfile_completes_setup (now E : string) (profileData : jsval)
    (f : Server.users_file) (b : AuthContext.browser) (idx : nat)
    (r : Pages.route) :
  AuthContext.currentUser b = JStr E →
  AuthContext.localStorage b = Some E →
  E ≠ "" →
  findIndex (Server.has_email (JStr E)) (Server.readUsers f) = Some idx →
  let saved := JObj (<["completedAt" := now]> (spread profileData)) in
  let w1 :=
    {| App.disk := Server.writeUsers
                     (alter (member "profile" saved) idx (Server.readUsers f));
       App.tab := {| AuthContext.localStorage := Some E;
                     AuthContext.currentUser := JStr E;
                     AuthContext.profile := saved;
                     AuthContext.loading := AuthContext.loading b |} |} in
  App.saveProfile now true profileData {| App.disk := f; App.tab := b |} = Some w1
  ∧ Navigation.settle 2 r (App.tab w1) = Some Pages.dashboard_route
  ∧ Navigation.reload true w1
    = {| App.disk := App.disk w1;
         App.tab := {| AuthContext.localStorage := Some E;
                       AuthContext.currentUser := JStr E;
                       AuthContext.profile := saved;
                       AuthContext.loading := false |} |}.
Proof.
  intros Huser Hsaved HE Hidx saved w1.
  pose proof (truthy_JStr_ne E HE) as Htruthy.
  split; [|split].
  - unfold App.saveProfile, AuthContext.saveProfile_body.
    cbn [App.disk App.tab]. rewrite Huser.
    rewrite (post_profile_found now (JStr E) profileData f idx Htruthy Hidx).
    destruct b as [s u pr l]. cbn in Huser, Hsaved. subst s u. reflexivity.
  - unfold Navigation.settle, Pages.element, Pages.AuthPage,
      Pages.ProfileSetupPage, Pages.ProtectedRoute, AuthContext.isProfileComplete.
    cbn [App.tab w1 AuthContext.currentUser AuthContext.profile].
    rewrite Htruthy. by destruct r.
  - subst w1 saved. unfold Navigation.reload.
    cbn [App.disk App.tab AuthContext.localStorage].
    destruct (findIndex_Some _ _ _ Hidx) as (user & _ & _ & Hfind).
    rewrite (restore_listed E _
               (member "profile"
                  (JObj (<["completedAt" := now]> (spread profileData))) user) HE).
    + by rewrite get_member_profile.
    + rewrite readUsers_writeUsers.
      by rewrite (find_alter_found _ _ _ _ (has_email_profile _ _) Hidx), Hfind.
Qed.

Lemma saveProfile_completes_setup_witness :
  Navigation.settle 2 Pages.login_route
    {| AuthContext.localStorage := Some "a@x.com";
       AuthContext.currentUser := JStr "a@x.com";
       AuthContext.profile :=
         JObj (<["completedAt" := "2024-09-09T00:00:00.000Z"]> (spread Demo.fields));
       AuthContext.loading := false |}
  = Some Pages.dashboard_route.
Proof.
  refine (proj1 (proj2 (saveProfile_completes_setup "2024-09-09T00:00:00.000Z"
    "a@x.com" Demo.fields Demo.one_user
    {| AuthContext.localStorage := Some "a@x.com";
       AuthContext.currentUser := JStr "a@x.com";
       AuthContext.profile := JNull; AuthContext.loading := false |}
    0 Pages.login_route _ _ _ _))).
  - reflexivity.
  - reflexivity.
  - discriminate.
  - vm_compute. reflexivity.
Defined.

(** X12.  A refresh while the server cannot be reached keeps the user signed
    in but forgets the profile: the current user is the stored marker, the
    profile is [null], and every route ends on the profile setup even when
    the account has a profile. *)
Theorem offline_reload_forgets_profile (E : string) (w : App.world)
    (r : Pages.route) :
  AuthContext.localStorage (App.tab w) = Some E →
  E ≠ "" →
  Navigation.reload false w
  = {| App.disk := App.disk w;
       App.tab := {| AuthContext.localStorage := Some E;
                     AuthContext.currentUser := JStr E;
                     AuthContext.profile := JNull;
                     AuthContext.loading := false |} |}
  ∧ Navigation.settle 2 r (App.tab (Navigation.reload false w))
    = Some Pages.setup_route.
Proof.
  intros Hsaved HE. apply truthy_JStr_ne in HE.
  assert (Hreload : Navigation.reload false w
    = {| App.disk := App.disk w;
         App.tab := {| AuthContext.localStorage := Some E;
                       AuthContext.currentUser := JStr E;
                       AuthContext.profile := JNull;
                       AuthContext.loading := false |} |}).
  { unfold Navigation.reload, App.restoreSession. rewrite andb_false_r.
    unfold AuthContext.restore. cbn [App.tab AuthContext.mounted
      AuthContext.localStorage AuthContext.profile App.disk].
    rewrite Hsaved. cbn in HE. by rewrite HE. }
  split; [exact Hreload|]. rewrite Hreload.
  unfold Navigation.settle, Pages.element, Pages.AuthPage,
    Pages.ProfileSetupPage, Pages.ProtectedRoute, AuthContext.isProfileComplete.
  cbn [App.tab AuthContext.currentUser AuthContext.profile].
  rewrite HE. by destruct r.
Qed.

Lemma offline_reload_forgets_profile_witness :
  Navigation.settle 2 Pages.dashboard_route
    (App.tab (Navigation.reload false
       {| App.disk := Demo.one_user;
          App.tab := {| AuthContext.localStorage := Some "a@x.com";
                        AuthContext.currentUser := JStr "a@x.com";
                        AuthContext.profile := Demo.fields;
                        AuthContext.loading := false |} |}))
  = Some Pages.setup_route.
Proof.
  refine (proj2 (offline_reload_forgets_profile "a@x.com"
    {| App.disk := Demo.one_user;
       App.tab := {| AuthContext.localStorage := Some "a@x.com";
                     AuthContext.currentUser := JStr "a@x.com";
                     AuthContext.profile := Demo.fields;
                     AuthContext.loading := false |} |}
    Pages.dashboard_route _ _)).
  - reflexivity.
  - discriminate.
Defined.

(** ** Patterns and text *)

Import Stdlib.Strings.Ascii Text.
Local Open Scope list_scope.

Lemma matches_nullable (r : regex) : nullable r = true → matches r [].
Proof.
  induction r as [| |p|r1 IH1 r2 IH2|r1 IH1 r2 IH2|r IH]; cbn; try discriminate.
  - intros _. constructor.
  - intros [H1 H2]%andb_true_iff.
    change (@nil ascii) with (@nil ascii ++ []). constructor; auto.
  - intros [H|H]%orb_true_iff; [apply matches_alt_l | apply matches_alt_r]; auto.
  - intros _. constructor.
Qed.

Lemma matches_deriv (c : ascii) (r : regex) (w : list ascii) :
  matches (deriv c r) w → matches r (c :: w).
Proof.
  revert w.
  induction r as [| |p|r1 IH1 r2 IH2|r1 IH1 r2 IH2|r IH]; intros w; cbn.
  - inversion 1.
  - inversion 1.
  - destruct (p c) eqn:Hp; inversion 1; subst. by constructor.
  - inversion 1 as [| | | ? ? ? Hl | ? ? ? Hr | | ]; subst.
    + inversion Hl as [| |? ? w1 w2 H1 H2| | | | ]; subst.
      change (c :: w1 ++ w2) with ((c :: w1) ++ w2). constructor; auto.
    + destruct (nullable r1) eqn:Hn; [|inversion Hr].
      change (c :: w) with ([] ++ c :: w).
      constructor; [by apply matches_nullable | auto].
  - inversion 1; subst; [apply matches_alt_l | apply matches_alt_r]; auto.
  - inversion 1 as [| |? ? w1 w2 H1 H2| | | | ]; subst.
    change (c :: w1 ++ w2) with ((c :: w1) ++ w2). constructor; auto.
Qed.

Lemma accepts_matches (r : regex) (w : list ascii) :
  accepts r w = true → matches r w.
Proof.
  revert r. induction w as [|c w IH]; intros r; cbn.
  - apply matches_nullable.
  - intros H. by apply matches_deriv, IH.
Qed.

Lemma matches_star_class (p : ascii → bool) (w : list ascii) :
  matches (Star (Class p)) w → Forall (λ c, p c = true) w.
Proof.
  intros H. remember (Star (Class p)) as r eqn:Hr.
  induction H as [| | | | | |r' w1 w2 H1 _ H2 IH2]; try discriminate.
  - constructor.
  - injection Hr as ->. inversion H1; subst. constructor; auto.
Qed.

Lemma matches_plus_class (p : ascii → bool) (w : list ascii) :
  matches (Plus (Class p)) w →
  ∃ c w', w = c :: w' ∧ p c = true ∧ Forall (λ c, p c = true) w'.
Proof.
  inversion 1 as [| |? ? w1 w2 H1 H2| | | | ]; subst.
  inversion H1; subst. eexists _, _. split; [reflexivity|].
  split; [done|]. by apply matches_star_class.
Qed.

Lemma plain_not_space (c : ascii) : plain c = true → is_space c = false.
Proof. unfold plain. by intros [H _]%andb_true_iff; apply negb_true_iff. Qed.

Lemma plain_not_at (c : ascii) : plain c = true → is_char "@"%char c = false.
Proof. unfold plain. by intros [_ H]%andb_true_iff; apply negb_true_iff. Qed.

Lemma is_char_eq (a c : ascii) : is_char a c = true → c = a.
Proof. apply Ascii.eqb_eq. Qed.

(** The shape of a text the email pattern accepts. *)
Lemma email_pattern_shape (s : string) :
  test email_pattern s = true →
  ∃ (c1 c2 c3 : ascii) (l d1 d2 : list ascii),
    String.list_ascii_of_string s
    = c1 :: l ++ "@"%char :: c2 :: d1 ++ "."%char :: c3 :: d2
    ∧ Forall (λ c, plain c = true) (c1 :: l)
    ∧ Forall (λ c, plain c = true) (c2 :: d1)
    ∧ Forall (λ c, plain c = true) (c3 :: d2).
Proof.
  intros H%accepts_matches. unfold email_pattern in H.
  inversion H as [| |? ? w1 v1 Mlocal M1 R1 E1| | | | ]; subst.
  inversion M1 as [| |? ? w2 v2 Mat M2 R2 E2| | | | ]; subst.
  inversion M2 as [| |? ? w3 v3 Mhost M3 R3 E3| | | | ]; subst.
  inversion M3 as [| |? ? w4 v4 Mdot Mtld R4 E4| | | | ]; subst.
  apply matches_plus_class in Mlocal as (c1 & l & -> & Hc1 & Hl).
  apply matches_plus_class in Mhost as (c2 & d1 & -> & Hc2 & Hd1).
  apply matches_plus_class in Mtld as (c3 & d2 & -> & Hc3 & Hd2).
  inversion Mat as [|? a Ha| | | | | ]; subst. apply is_char_eq in Ha as ->.
  inversion Mdot as [|? a Ha| | | | | ]; subst. apply is_char_eq in Ha as ->.
  exists c1, c2, c3, l, d1, d2. split.
  - reflexivity.
  - repeat split; by constructor.
Qed.

Lemma trimStart_id (s : string) :
  Forall (λ c, is_space c = false) (String.list_ascii_of_string s) →
  trimStart s = s.
Proof.
  destruct s as [|c s]; cbn; [done|]. inversion 1 as [|? ? Hc _]; subst.
  by rewrite Hc.
Qed.

Lemma trimEnd_id (s : string) :
  Forall (λ c, is_space c = false) (String.list_ascii_of_string s) →
  trimEnd s = s.
Proof.
  induction s as [|c s IH]; cbn; [done|].
  inversion 1 as [|? ? Hc Hs]; subst. rewrite (IH Hs), Hc. by destruct s.
Qed.

Lemma trim_id (s : string) :
  Forall (λ c, is_space c = false) (String.list_ascii_of_string s) →
  trim s = s.
Proof.
  intros H. unfold trim. rewrite (trimStart_id s H). by apply trimEnd_id.
Qed.

Lemma email_pattern_no_space (s : string) :
  test email_pattern s = true →
  Forall (λ c, is_space c = false) (String.list_ascii_of_string s).
Proof.
  intros (c1 & c2 & c3 & l & d1 & d2 & -> & H1 & H2 & H3)%email_pattern_shape.
  rewrite !app_comm_cons.
  repeat (apply Forall_app; split); try (constructor; [reflexivity|]);
    try (eapply Forall_impl; [eassumption|]; intros; by apply plain_not_space).
Qed.

Lemma email_pattern_not_empty (s : string) :
  test email_pattern s = true → s ≠ "".
Proof. by intros H ->. Qed.

Lemma filter_at_plain (l : list ascii) :
  Forall (λ c, plain c = true) l → List.filter (is_char "@"%char) l = [].
Proof.
  induction 1 as [|c l Hc _ IH]; cbn; [done|].
  by rewrite (plain_not_at c Hc).
Qed.

Lemma matches_repeat_class (p : ascii → bool) (n : nat) (w : list ascii) :
  matches (Repeat n (Class p)) w → length w = n ∧ Forall (λ c, p c = true) w.
Proof.
  revert w. induction n as [|n IH]; intros w; cbn.
  - inversion 1. by split.
  - inversion 1 as [| |? ? w1 w2 Hc Hrest| | | | ]; subst.
    inversion Hc; subst. destruct (IH _ Hrest) as [<- Hall].
    split; [done|]. by constructor.
Qed.

Lemma length_list_ascii (s : string) :
  length (String.list_ascii_of_string s) = String.length s.
Proof. induction s as [|c s IH]; cbn; congruence. Qed.

Lemma has_errors_insert (k v : string) (m : gmap string string) :
  Forms.has_errors (<[k := v]> m) = true.
Proof.
  unfold Forms.has_errors. apply Nat.ltb_lt.
  assert (size (<[k := v]> m) ≠ 0); [|lia].
  apply map_size_non_empty_iff, insert_non_empty.
Qed.

Lemma has_errors_false (m : gmap string string) :
  Forms.has_errors m = false → m = ∅.
Proof.
  unfold Forms.has_errors. intros H%Nat.ltb_ge.
  apply map_size_empty_iff. lia.
Qed.

(** What a login form without validation errors holds. *)
Lemma validateLogin_accepted (form : Forms.loginForm) :
  Forms.has_errors (Forms.validateLogin form) = false →
  test email_pattern (Forms.login_email form) = true
  ∧ Forms.login_password form ≠ "".
Proof.
  unfold Forms.validateLogin.
  destruct (String.eqb (trim _) ""); [|destruct (test _ _)]; cbn [negb];
    destruct (String.eqb_spec (Forms.login_password form) "");
    rewrite ?has_errors_insert; try discriminate.
  done.
Qed.

(** What a signup form without validation errors holds. *)
Lemma validateSignup_accepted (form : Forms.signupForm) :
  Forms.has_errors (Forms.validateSignup form) = false →
  test email_pattern (Forms.signup_email form) = true
  ∧ Forms.signup_password form ≠ ""
  ∧ (6 ≤ String.length (Forms.signup_password form))%nat
  ∧ Forms.confirmPassword form = Forms.signup_password form.
Proof.
  unfold Forms.validateSignup.
  destruct (String.eqb (trim _) ""); [|destruct (test _ _)]; cbn [negb];
    (destruct (String.eqb_spec (Forms.signup_password form) "");
     [|destruct (Nat.ltb_spec (String.length (Forms.signup_password form)) 6)]);
    (destruct (String.eqb (Forms.confirmPassword form) "");
     [|destruct (String.eqb_spec (Forms.signup_password form)
                  (Forms.confirmPassword form))]);
    cbn [negb]; rewrite ?has_errors_insert; try discriminate.
  done.
Qed.

(** ** Properties of the forms *)

(** X13.  A text the email pattern of the auth page accepts is not empty,
    holds no white space, holds exactly one [@], and is left as it is by
    [trim()]: the email the page sends is the email that was checked. *)
Theorem accepted_email_shape (s : string) :
  test email_pattern s = true →
  s ≠ ""
  ∧ Forall (λ c, is_space c = false) (String.list_ascii_of_string s)
  ∧ length (List.filter (is_char "@"%char) (String.list_ascii_of_string s)) = 1
  ∧ trim s = s.
Proof.
  intros H. split; [by apply email_pattern_not_empty|].
  split; [by apply email_pattern_no_space|].
  split; [|by apply trim_id, email_pattern_no_space].
  destruct (email_pattern_shape s H)
    as (c1 & c2 & c3 & l & d1 & d2 & -> & H1 & H2 & H3).
  change (c1 :: l ++ "@"%char :: c2 :: d1 ++ "."%char :: c3 :: d2)
    with ((c1 :: l) ++ ["@"%char] ++ (c2 :: d1) ++ ["."%char] ++ (c3 :: d2)).
  rewrite !List.filter_app.
  by rewrite (filter_at_plain _ H1), (filter_at_plain _ H2), (filter_at_plain _ H3).
Qed.

Lemma accepted_email_shape_witness : trim "a@x.com" = "a@x.com".
Proof.
  exact (proj2 (proj2 (proj2 (accepted_email_shape "a@x.com" eq_refl)))).
Defined.

(** X14.  A phone number the profile form accepts is, once trimmed, exactly
    ten decimal digits of which the first is 6, 7, 8 or 9; an accepted full
    name has at least two characters once trimmed, and city and state are
    not empty. *)
Theorem accepted_profile_shape (form : Forms.profileForm) :
  Forms.has_errors (Forms.validate form) = false →
  (∃ (c : ascii) (digits : list ascii),
      String.list_ascii_of_string (trim (Forms.phone form)) = c :: digits
      ∧ in_range "6"%char "9"%char c = true
      ∧ length digits = 9
      ∧ Forall (λ d, in_range "0"%char "9"%char d = true) digits)
  ∧ (2 ≤ String.length (trim (Forms.fullName form)))%nat
  ∧ trim (Forms.city form) ≠ ""
  ∧ Forms.state form ≠ "".
Proof.
  unfold Forms.validate.
  destruct (String.eqb (trim (Forms.fullName form)) "");
    [|destruct (Nat.ltb_spec (String.length (trim (Forms.fullName form))) 2)];
    (destruct (String.eqb (trim (Forms.phone form)) "");
     [|destruct (test phone_pattern (trim (Forms.phone form))) eqn:Hphone]);
    cbn [negb];
    destruct (String.eqb_spec (trim (Forms.city form)) "");
    destruct (String.eqb_spec (Forms.state form) "");
    rewrite ?has_errors_insert; try discriminate.
  intros _. split; [|done].
  apply accepts_matches in Hphone. unfold phone_pattern in Hphone.
  inversion Hphone as [| |? ? w1 w2 Hfirst Hrest| | | | ]; subst.
  inversion Hfirst; subst.
  apply (matches_repeat_class (in_range "0"%char "9"%char) 9) in Hrest
    as [Hlen Hall].
  by eexists _, _.
Qed.

Lemma accepted_profile_shape_witness :
  (2 ≤ String.length (trim " A B "))%nat.
Proof.
  exact (proj1 (proj2 (accepted_profile_shape
    {| Forms.fullName := " A B "; Forms.phone := "9876543210 ";
       Forms.city := "Pune"; Forms.state := "Maharashtra" |} eq_refl))).
Defined.

Lemma login_cases (email : string) (r : AuthContext.fetched) (b : AuthContext.browser) :
  (truthy (AuthContext.login email r b).1 = true
   ∧ (AuthContext.login email r b).2 = b)
  ∨ ∃ pr, AuthContext.login email r b
          = (JNull, {| AuthContext.localStorage := Some email;
                       AuthContext.currentUser := JStr email;
                       AuthContext.profile := pr;
                       AuthContext.loading := AuthContext.loading b |}).
Proof.
  destruct r as [status data|]; cbn; [|by left].
  destruct (AuthContext.ok status); cbn; [right; eauto|left].
  split; [|done]. by apply truthy_js_or.
Qed.

Lemma App_login_total (bcrypt_check : string → string → bool) (online : bool)
    (E p : string) (w : App.world) :
  ∃ err w', App.login bcrypt_check online E p w = Some (err, w').
Proof.
  unfold App.login. destruct online.
  - destruct (Server.post_login _ _ _); cbn [App.deliver mbind option_bind];
      destruct (AuthContext.login _ _ _); eauto.
  - destruct (AuthContext.login _ _ _); eauto.
Qed.

Lemma App_login_cases (bcrypt_check : string → string → bool) (online : bool)
    (E p : string) (w w' : App.world) (err : jsval) :
  App.login bcrypt_check online E p w = Some (err, w') →
  (truthy err = true ∧ w' = w)
  ∨ (err = JNull
     ∧ App.disk w' = App.disk w
     ∧ AuthContext.localStorage (App.tab w') = Some E
     ∧ AuthContext.currentUser (App.tab w') = JStr E).
Proof.
  destruct w as [f b]. unfold App.login. cbn [App.disk App.tab].
  assert (Hcases : ∀ r, (let '(e, t) := AuthContext.login E r b in
                         Some (e, {| App.disk := f; App.tab := t |}))
                        = Some (err, w') →
            (truthy err = true ∧ w' = {| App.disk := f; App.tab := b |})
            ∨ (err = JNull ∧ App.disk w' = f
               ∧ AuthContext.localStorage (App.tab w') = Some E
               ∧ AuthContext.currentUser (App.tab w') = JStr E)).
  { intros r. destruct (login_cases E r b) as [[Ht Hb]|[pr Hr]].
    - destruct (AuthContext.login E r b) as [e t]. cbn in Ht, Hb. subst t.
      intros [= <- <-]. by left.
    - rewrite Hr. intros [= <- <-]. right. done. }
  destruct online; [|apply Hcases].
  destruct (Server.post_login _ _ _) as [status data|];
    cbn [App.deliver mbind option_bind]; apply Hcases.
Qed.

Lemma settle_after_setup (b : AuthContext.browser) :
  truthy (AuthContext.currentUser b) = true →
  Navigation.settle 2 Pages.setup_route b
  = Some (if AuthContext.isProfileComplete b then Pages.dashboard_route
          else Pages.setup_route).
Proof.
  destruct b as [saved user prof l]. cbn [AuthContext.currentUser]. intros Huser.
  unfold Navigation.settle, Pages.element, Pages.ProfileSetupPage,
    Pages.ProtectedRoute, AuthContext.isProfileComplete.
  cbn [AuthContext.currentUser AuthContext.profile].
  rewrite Huser. by destruct (truthy prof).
Qed.

(** X15.  [handleLogin] always ends, in one of two ways.  Either it stays
    on the auth page with field errors or an API error and the tab and the
    server are exactly as before; or it navigates to [/setup] signed in as
    the email typed, with the marker stored, and the guard of that page then
    shows the profile setup when the session has no profile and passes on to
    the dashboard when it has one. *)
Theorem handleLogin_outcome (bcrypt_check : string → string → bool)
    (online : bool) (form : Forms.loginForm) (w : App.world) :
  ∃ res : Forms.submitted,
    Forms.handleLogin bcrypt_check online form w = Some res
    ∧ ((Forms.navigated res = None
        ∧ Forms.after res = w
        ∧ (Forms.has_errors (Forms.errors res) = true
           ∨ truthy (Forms.apiError res) = true))
       ∨ (Forms.navigated res = Some "/setup"
          ∧ Forms.errors res = ∅
          ∧ App.disk (Forms.after res) = App.disk w
          ∧ AuthContext.currentUser (App.tab (Forms.after res))
            = JStr (Forms.login_email form)
          ∧ AuthContext.localStorage (App.tab (Forms.after res))
            = Some (Forms.login_email form)
          ∧ Navigation.settle 2 Pages.setup_route (App.tab (Forms.after res))
            = Some (if AuthContext.isProfileComplete (App.tab (Forms.after res))
                    then Pages.dashboard_route else Pages.setup_route))).
Proof.
  unfold Forms.handleLogin.
  destruct (Forms.has_errors (Forms.validateLogin form)) eqn:Herr.
  { eexists. split; [reflexivity|]. left. cbn. auto. }
  destruct (validateLogin_accepted form Herr) as [Hemail Hpw].
  rewrite (trim_id _ (email_pattern_no_space _ Hemail)).
  destruct (App_login_total bcrypt_check online (Forms.login_email form)
              (Forms.login_password form) w) as (err & w' & Hlogin).
  rewrite Hlogin. cbn [mbind option_bind].
  destruct (App_login_cases _ _ _ _ _ _ _ Hlogin)
    as [[Ht ->]|(-> & Hdisk & Hsaved & Huser)].
  - rewrite Ht. eexists. split; [reflexivity|]. left. cbn. auto.
  - cbn [truthy]. eexists. split; [reflexivity|]. right. cbn.
    repeat split; try done; [by apply has_errors_false|].
    apply settle_after_setup. rewrite Huser.
    by apply truthy_JStr_ne, email_pattern_not_empty.
Qed.

(** A Google-created account and the login form: the handler rejects, the
    context reports that the server cannot be reached, the page stays. *)
Example handleLogin_google_account :
  Forms.handleLogin Demo.check true
    {| Forms.login_email := "g@x.com"; Forms.login_password := "anything" |}
    {| App.disk :=
         Server.writeUsers
           [Server.googleUser (JStr "g@x.com") "2024-04-04T00:00:00.000Z"];
       App.tab := AuthContext.mounted None |}
  = Some {| Forms.errors := ∅;
            Forms.apiError := AuthContext.cannot_connect;
            Forms.navigated := None;
            Forms.after :=
              {| App.disk :=
                   Server.writeUsers
                     [Server.googleUser (JStr "g@x.com")
                        "2024-04-04T00:00:00.000Z"];
                 App.tab := AuthContext.mounted None |} |}.
Proof. vm_compute. reflexivity. Qed.

Lemma App_signup_cases (bcrypt_hash : string → string → string)
    (now salt : string) (online : bool) (E p : string) (w w' : App.world)
    (err : jsval) :
  App.signup bcrypt_hash now salt online E p w = Some (err, w') →
  (truthy err = true ∧ w' = w)
  ∨ (err = JNull
     ∧ find (Server.has_email (JStr E)) (Server.readUsers (App.disk w)) = None
     ∧ w' = {| App.disk :=
                 Server.writeUsers
                   (Server.readUsers (App.disk w)
                    ++ [Server.newUser (JStr E) (bcrypt_hash p salt) now]);
               App.tab :=
                 {| AuthContext.localStorage := Some E;
                    AuthContext.currentUser := JStr E;
                    AuthContext.profile := JNull;
                    AuthContext.loading := AuthContext.loading (App.tab w) |} |}).
Proof.
  destruct w as [f b]. unfold App.signup, Server.post_signup.
  cbn [App.disk App.tab AuthContext.signup_body Server.email Server.password].
  destruct online; [|intros [= <- <-]; by left].
  destruct (negb (truthy (JStr E)) || negb (truthy (JStr p)));
    [intros [= <- <-]; by left|].
  destruct (find _ _) eqn:Hfind; [intros [= <- <-]; by left|].
  intros [= <- <-]. by right.
Qed.

(** X16.  [handleSignup] has two outcomes.  Either it stays on the auth page
    with field errors or an API error and the tab and the server are exactly
    as before; or the password has at least six characters, the email had no
    account, exactly the new account is appended to the file, the tab is
    signed in without a profile, and [/setup], where it navigates, shows the
    profile setup. *)
Theorem handleSignup_outcome (bcrypt_hash : string → string → string)
    (now salt : string) (online : bool) (form : Forms.signupForm)
    (w : App.world) (res : Forms.submitted) :
  Forms.handleSignup bcrypt_hash now salt online form w = Some res →
  (Forms.navigated res = None
   ∧ Forms.after res = w
   ∧ (Forms.has_errors (Forms.errors res) = true
      ∨ truthy (Forms.apiError res) = true))
  ∨ (Forms.navigated res = Some "/setup"
     ∧ Forms.errors res = ∅
     ∧ (6 ≤ String.length (Forms.signup_password form))%nat
     ∧ find (Server.has_email (JStr (Forms.signup_email form)))
         (Server.readUsers (App.disk w)) = None
     ∧ Forms.after res
       = {| App.disk :=
              Server.writeUsers
                (Server.readUsers (App.disk w)
                 ++ [Server.newUser (JStr (Forms.signup_email form))
                       (bcrypt_hash (Forms.signup_password form) salt) now]);
            App.tab :=
              {| AuthContext.localStorage := Some (Forms.signup_email form);
                 AuthContext.currentUser := JStr (Forms.signup_email form);
                 AuthContext.profile := JNull;
                 AuthContext.loading := AuthContext.loading (App.tab w) |} |}
     ∧ Navigation.settle 2 Pages.setup_route (App.tab (Forms.after res))
       = Some Pages.setup_route).
Proof.
  unfold Forms.handleSignup.
  destruct (Forms.has_errors (Forms.validateSignup form)) eqn:Herr.
  { intros [= <-]. left. cbn. auto. }
  destruct (validateSignup_accepted form Herr) as (Hemail & Hpw & Hlen & Hconfirm).
  rewrite (trim_id _ (email_pattern_no_space _ Hemail)).
  destruct (App.signup _ _ _ _ _ _ _) as [[err w']|] eqn:Hsignup; [|discriminate].
  cbn [mbind option_bind].
  destruct (App_signup_cases _ _ _ _ _ _ _ _ _ Hsignup)
    as [[Ht ->]|(-> & Hfind & ->)].
  - rewrite Ht. intros [= <-]. left. cbn. auto.
  - cbn [truthy]. intros [= <-]. right. cbn [Forms.navigated Forms.errors Forms.after].
    repeat split; try done; [by apply has_errors_false|].
    rewrite settle_after_setup; [done|].
    by apply truthy_JStr_ne, email_pattern_not_empty.
Qed.

Lemma handleSignup_outcome_witness :
  Navigation.settle 2 Pages.setup_route
    {| AuthContext.localStorage := Some "b@x.com";
       AuthContext.currentUser := JStr "b@x.com";
       AuthContext.profile := JNull;
       AuthContext.loading := true |}
  = Some Pages.setup_route.
Proof.
  pose (res :=
    {| Forms.errors := ∅; Forms.apiError := JStr "";
       Forms.navigated := Some "/setup";
       Forms.after :=
         {| App.disk :=
              Server.writeUsers
                (Server.readUsers Demo.one_user
                 ++ [Server.newUser (JStr "b@x.com") (Demo.hash "secret2" "s")
                       "2024-10-10T00:00:00.000Z"]);
            App.tab := {| AuthContext.localStorage := Some "b@x.com";
                          AuthContext.currentUser := JStr "b@x.com";
                          AuthContext.profile := JNull;
                          AuthContext.loading := true |} |} |}).
  assert (Hrun : Forms.handleSignup Demo.hash "2024-10-10T00:00:00.000Z" "s" true
            {| Forms.signup_email := "b@x.com"; Forms.signup_password := "secret2";
               Forms.confirmPassword := "secret2" |}
            {| App.disk := Demo.one_user; App.tab := AuthContext.mounted None |}
          = Some res) by (vm_compute; reflexivity).
  destruct (handleSignup_outcome _ _ _ _ _ _ _ Hrun)
    as [(H & _)|(_ & _ & _ & _ & _ & H)].
  - discriminate H.
  - exact H.
Defined.

Lemma settle_home (r : Pages.route) (saved : option string) (user prof : jsval)
    (l : bool) :
  Navigation.settle 2 r
    {| AuthContext.localStorage := saved; AuthContext.currentUser := user;
       AuthContext.profile := prof; AuthContext.loading := l |}
  = Some (if truthy user then
            if truthy prof then Pages.dashboard_route else Pages.setup_route
          else Pages.login_route).
Proof.
  unfold Navigation.settle, Pages.element, Pages.AuthPage,
    Pages.ProfileSetupPage, Pages.ProtectedRoute, AuthContext.isProfileComplete.
  cbn [AuthContext.currentUser AuthContext.profile].
  destruct r, (truthy user), (truthy prof); reflexivity.
Qed.

(** X17.  [handleSubmit] of the profile setup, with a form that passes
    validation and a user signed in without a profile, always navigates to
    [/dashboard] and shows no error.  When the server is reachable and the
    email has an account, the tab then holds the stamped profile and the
    dashboard is shown; otherwise nothing has changed and the guard of the
    dashboard sends the user back to the profile setup. *)
Theorem handleSubmit_outcome (now E : string) (online : bool)
    (form : Forms.profileForm) (w : App.world) :
  AuthContext.currentUser (App.tab w) = JStr E →
  E ≠ "" →
  AuthContext.profile (App.tab w) = JNull →
  Forms.has_errors (Forms.validate form) = false →
  ∃ res, Forms.handleSubmit now online form w = Some res
    ∧ Forms.navigated res = Some "/dashboard"
    ∧ Forms.apiError res = JStr ""
    ∧ (online = true →
       find (Server.has_email (JStr E)) (Server.readUsers (App.disk w)) ≠ None →
       AuthContext.profile (App.tab (Forms.after res))
       = JObj (<["completedAt" := now]> (spread (Forms.profileData form)))
       ∧ Navigation.settle 2 Pages.dashboard_route (App.tab (Forms.after res))
         = Some Pages.dashboard_route)
    ∧ (online = false
       ∨ find (Server.has_email (JStr E)) (Server.readUsers (App.disk w)) = None →
       Forms.after res = w
       ∧ Navigation.settle 2 Pages.dashboard_route (App.tab w)
         = Some Pages.setup_route).
Proof.
  destruct w as [f [saved user prof l]].
  cbn [App.tab App.disk AuthContext.currentUser AuthContext.profile].
  intros -> HE -> Hvalid. apply truthy_JStr_ne in HE.
  unfold Forms.handleSubmit. rewrite Hvalid.
  unfold App.saveProfile, AuthContext.saveProfile_body.
  cbn [App.tab App.disk AuthContext.currentUser].
  assert (Hback : Navigation.settle 2 Pages.dashboard_route
            {| AuthContext.localStorage := saved;
               AuthContext.currentUser := JStr E;
               AuthContext.profile := JNull; AuthContext.loading := l |}
          = Some Pages.setup_route).
  { by rewrite settle_home, HE. }
  destruct online.
  - destruct (findIndex (Server.has_email (JStr E)) (Server.readUsers f))
      as [idx|] eqn:Hidx.
    + rewrite (post_profile_found now (JStr E) _ f idx HE Hidx).
      eexists. split; [reflexivity|].
      cbn [Forms.navigated Forms.apiError Forms.after App.tab App.disk
           App.deliver mbind option_bind AuthContext.saveProfile AuthContext.ok
           Nat.leb Nat.ltb andb AuthContext.data_profile AuthContext.profile].
      split; [done|]. split; [done|]. split.
      * intros _ _. split; [done|].
        rewrite settle_home. cbn [AuthContext.currentUser]. by rewrite HE.
      * intros [|H]; [done|]. apply findIndex_None in H. congruence.
    + unfold Server.post_profile. cbn [Server.owner]. rewrite HE, Hidx.
      eexists. split; [reflexivity|].
      cbn [Forms.navigated Forms.apiError Forms.after App.tab App.disk
           App.deliver mbind option_bind AuthContext.saveProfile AuthContext.ok
           Nat.leb Nat.ltb andb negb].
      split; [done|]. split; [done|]. split.
      * intros _ H. by apply findIndex_None in Hidx.
      * intros _. by split.
  - eexists. split; [reflexivity|].
    cbn [Forms.navigated Forms.apiError Forms.after App.tab App.disk
         mbind option_bind AuthContext.saveProfile].
    split; [done|]. split; [done|]. split; [done|]. intros _. by split.
Qed.

Lemma handleSubmit_outcome_witness :
  ∃ res, Forms.handleSubmit "2024-10-10T00:00:00.000Z" false
           {| Forms.fullName := "A B"; Forms.phone := "9876543210";
              Forms.city := "Pune"; Forms.state := "Maharashtra" |}
           {| App.disk := Demo.one_user;
              App.tab := {| AuthContext.localStorage := Some "a@x.com";
                            AuthContext.currentUser := JStr "a@x.com";
                            AuthContext.profile := JNull;
                            AuthContext.loading := false |} |} = Some res
         ∧ Forms.navigated res = Some "/dashboard".
Proof.
  destruct (handleSubmit_outcome "2024-10-10T00:00:00.000Z" "a@x.com" false
    {| Forms.fullName := "A B"; Forms.phone := "9876543210";
       Forms.city := "Pune"; Forms.state := "Maharashtra" |}
    {| App.disk := Demo.one_user;
       App.tab := {| AuthContext.localStorage := Some "a@x.com";
                     AuthContext.currentUser := JStr "a@x.com";
                     AuthContext.profile := JNull;
                     AuthContext.loading := false |} |}
    eq_refl ltac:(discriminate) eq_refl eq_refl) as (res & H1 & H2 & _).
  exists res. by split.
Defined.
